(** * Image augmentor base classes

    A shallow embedding of [tensorpack/dataflow/imgaug/base.py]:
    [ImageAugmentor], [AugmentorList] and [PhotometricAugmentor], with
    the theorems that relate the code to its written specification.

    Python methods become functions in a state-and-exception monad.
    Objects that the module only passes around (images, coordinate
    sets, random generators) are fields of the [Collaborators] class. *)

From Stdlib Require Import ZArith List String Ascii Lia.
From stdpp Require Import gmap strings list pretty.

Local Open Scope Z_scope.

(** ** Outcomes of Python code *)

(** The exceptions that the module raises, catches or lets through.
    [OtherError] stands for whatever else user hooks may raise. *)
Inductive exn : Type :=
| AttributeError
| AssertionError (arg : string)
| RuntimeError (msg : string)
| TypeError
| IndexError
| ValueError
| OtherError (tag : N).

Inductive result (A : Type) : Type :=
| Ok (a : A)
| Raise (e : exn).
Arguments Ok {A} a.
Arguments Raise {A} e.

(** A computation over a state [S] that returns or raises; the state
    reached is kept in both cases, as Python keeps side effects made
    before an exception. *)
Definition SE (S A : Type) : Type := S -> result A * S.

Definition ret {S A} (a : A) : SE S A := fun s => (Ok a, s).

Definition raise {S A} (e : exn) : SE S A := fun s => (Raise e, s).

Definition bind {S A B} (c : SE S A) (k : A -> SE S B) : SE S B :=
  fun s =>
    match c s with
    | (Ok a, s') => k a s'
    | (Raise e, s') => (Raise e, s')
    end.

Notation "x <~ c ;; k" := (bind c (fun x => k))
  (at level 100, c at next level, right associativity).
Notation "c ;;; k" := (bind c (fun _ => k))
  (at level 100, right associativity).

(** A pure outcome, as a computation. *)
Definition of_result {S A} (r : result A) : SE S A := fun s => (r, s).

(** [try: c  except AttributeError: h].  Only [AttributeError] is
    caught; the handler runs in the state the body left behind. *)
Definition except_AttributeError {S A} (c : SE S A) (h : SE S A) : SE S A :=
  fun s =>
    match c s with
    | (Raise AttributeError, s') => h s'
    | r => r
    end.

(** Calling a method that the object may not have: a missing attribute
    raises [AttributeError] at the call. *)
Definition call1 {S A R} (m : option (A -> SE S R)) (a : A) : SE S R :=
  match m with
  | Some f => f a
  | None => raise AttributeError
  end.

Definition call2 {S A B R} (m : option (A -> B -> SE S R)) (a : A) (b : B)
  : SE S R :=
  match m with
  | Some f => f a b
  | None => raise AttributeError
  end.

(** ** External collaborators

    What [base.py] imports or receives and never inspects: numpy
    arrays and their [ndim], [check_dtype] of [dataflow/image.py], the
    numpy random generator, and [object.__repr__]. *)
Class Collaborators : Type := {
  Img : Type;                (* an image (ndarray) *)
  Coords : Type;             (* a coordinate set *)
  ParamVal : Type;           (* a parameter value other than None or a Transform *)
  UserState : Type;          (* whatever else user hooks read and write *)
  RNG : Type;                (* state of a numpy RandomState *)
  Num : Type;                (* a Python number *)
  Arr : Type;                (* what rng.uniform returns *)
  ndim : Img -> Z;
  check_dtype : Img -> result unit;
  num_zero : Num;            (* the literal 0 *)
  num_one : Num;             (* the literal 1.0 *)
  uniform : Num -> Num -> list Z -> SE RNG Arr;
  new_rng : N -> nat -> RNG;
  object_repr : N -> string -> string
}.

(** ** The store *)

(** Objects compared with [is] and printed with [pprint.pformat]. *)
Record pyobj : Type := { py_id : N; py_repr : string }.

Definition py_is (a b : pyobj) : bool := N.eqb (py_id a) (py_id b).

Definition py_True : pyobj := {| py_id := 1; py_repr := "True" |}.
Definition py_False : pyobj := {| py_id := 2; py_repr := "False" |}.

Definition pformat (o : pyobj) : string := py_repr o.

Section Model.
Context `{C : Collaborators}.

(** [rngs] holds the [rng] attribute of every augmentor instance, by
    instance identity; no entry means the attribute was never set.
    [rng_requests] lists the instances [get_rng] was called for. *)
Record heap : Type := {
  user : UserState;
  rngs : gmap N RNG;
  rng_requests : list N
}.

(** The heap together with the messages [log_once] has already emitted. *)
Record world : Type := {
  mem : heap;
  warned : list string
}.

Definition lift {A} (c : SE heap A) : SE world A :=
  fun w =>
    let '(r, h) := c (mem w) in
    (r, {| mem := h; warned := warned w |}).

(** Modelled from the spec: [get_rng] of [utils/utils.py], the "RNG
    construction utility" that, given an augmentor instance, returns a
    fresh RNG handle.  The handle depends on the instance and on how
    many handles were made before. *)
Definition get_rng (self : N) : SE heap RNG :=
  fun h =>
    (Ok (new_rng self (length (rng_requests h))),
     {| user := user h; rngs := rngs h;
        rng_requests := rng_requests h ++ [self] |}).

(** Modelled from the spec: [log_once] of [utils/argtools.py], which
    emits a message as a warning the first time it is given. *)
Definition log_once (msg : string) : SE world unit :=
  fun w =>
    if bool_decide (msg ∈ warned w) then (Ok tt, w)
    else (Ok tt, {| mem := mem w; warned := warned w ++ [msg] |}).

(** ** Transforms (the collaborating [transform] module) *)

(** Modelled from the spec: the [Transform] abstraction of
    [transform.py], which is not part of this file.  It "must expose
    apply to image and apply to coordinate set operations"; the three
    constructors are the three ways [base.py] builds one: the "named
    factory taking an image-applying closure and a coordinate-applying
    closure", the photometric kind made from a pixel function and a
    name, and the "ordered-aggregate transform kind". *)
#[local] Unset Elimination Schemes.
Inductive Transform : Type :=
| TransformFactory (name : string)
    (apply_image_fn : Img -> SE heap Img)
    (apply_coords_fn : Coords -> SE heap Coords)
| PhotometricTransform (func : Img -> SE heap Img) (name : string)
| TransformList (tfms : list Transform).

(** Modelled from the spec: applying a transform to an image.  The
    aggregate applies its stages in order. *)
Fixpoint apply_image (t : Transform) (img : Img) : SE heap Img :=
  match t with
  | TransformFactory _ f _ => f img
  | PhotometricTransform f _ => f img
  | TransformList tfms =>
      (fix go (ts : list Transform) (x : Img) : SE heap Img :=
         match ts with
         | [] => ret x
         | t' :: ts' => y <~ apply_image t' x ;; go ts' y
         end) tfms img
  end.

(** Modelled from the spec: applying a transform to a coordinate set.
    The photometric kind "alters pixel values only, never spatial
    coordinates"; the aggregate applies "each stage's coordinate
    mapping in the same order used for images". *)
Fixpoint apply_coords (t : Transform) (coords : Coords) : SE heap Coords :=
  match t with
  | TransformFactory _ _ g => g coords
  | PhotometricTransform _ _ => ret coords
  | TransformList tfms =>
      (fix go (ts : list Transform) (x : Coords) : SE heap Coords :=
         match ts with
         | [] => ret x
         | t' :: ts' => y <~ apply_coords t' x ;; go ts' y
         end) tfms coords
  end.

(** What a parameter-sampling hook may return: [None], a [Transform]
    ([isinstance(p, Transform)] holds), or any other object, which may
    or may not have an [apply_coords] attribute of its own. *)
Inductive param : Type :=
| PNone
| PTransform (t : Transform)
| PObject (v : ParamVal) (apply_coords_attr : option (Coords -> SE heap Coords)).

(** ** Augmentor instances *)

(** What [inspect.getargspec(self.__init__)] returns, when it returns. *)
Record ArgSpec : Type := {
  args : list string;
  varargs : option string;
  keywords : option string;
  defaults : option (list pyobj)
}.

(** An instance: its identity, [type(self).__name__], the signature of
    its constructor, the attributes [getattr] finds on it, and the
    exception that [inspect.getargspec(self.__init__)] raises instead
    of returning the signature, if it does: [ValueError] for a
    constructor with annotations or keyword-only parameters,
    [TypeError] for a callable it does not support. *)
Record instance : Type := {
  self_id : N;
  classname : string;
  init_argspec : ArgSpec;
  attrs : gmap string pyobj;
  getargspec_raises : option exn
}.

(** Methods that a subclass relying on the inherited [get_transform]
    may define.  [None] means the attribute does not exist, except for
    [augment_coords], which the base class defines: there [None] means
    the inherited definition.  Hooks are user code: they read and
    write the heap (their own attributes, the random generators) and
    may raise. *)
Record hooks : Type := {
  _get_augment_params : option (Img -> SE heap param);
  get_augment_params : option (Img -> SE heap param);
  _augment : option (Img -> param -> SE heap Img);
  _augment_coords : option (Coords -> param -> SE heap Coords);
  augment_coords_override : option (Coords -> param -> SE heap Coords)
}.

(** The classes of augmentor: a subclass of [ImageAugmentor] that uses
    the inherited [get_transform]; a subclass that overrides
    [get_transform]; a [PhotometricAugmentor] with its [_get_params]
    (when overridden) and [_impl] (when defined); an [AugmentorList]. *)
Inductive augmentor : Type :=
| ImageAugmentor (self : instance) (h : hooks)
| CustomAugmentor (self : instance) (get_transform_fn : Img -> SE heap Transform)
| PhotometricAugmentor (self : instance)
    (_get_params_override : option (Img -> SE heap param))
    (_impl : option (Img -> param -> SE heap Img))
| AugmentorList (self : instance) (augmentors : list augmentor).
#[local] Set Elimination Schemes.

Definition instance_of (a : augmentor) : instance :=
  match a with
  | ImageAugmentor self _ => self
  | CustomAugmentor self _ => self
  | PhotometricAugmentor self _ _ => self
  | AugmentorList self _ => self
  end.

(** ** [ImageAugmentor]: random state *)

(** [ImageAugmentor.reset_state]: [self.rng = get_rng(self)]. *)
Definition set_rng (self : N) (r : RNG) : SE heap unit :=
  fun h =>
    (Ok tt, {| user := user h; rngs := <[self := r]> (rngs h);
               rng_requests := rng_requests h |}).

Definition ImageAugmentor_reset_state (self : instance) : SE heap unit :=
  r <~ get_rng (self_id self) ;; set_rng (self_id self) r.

(** Reading [self.rng]: [AttributeError] when it was never assigned. *)
Definition get_self_rng (self : instance) : SE heap RNG :=
  fun h =>
    match rngs h !! self_id self with
    | Some r => (Ok r, h)
    | None => (Raise AttributeError, h)
    end.

(** [rng.uniform(low, high, size)] advances the generator in place. *)
Definition rng_uniform (self : instance) (r : RNG) (low high : Num)
    (size : list Z) : SE heap Arr :=
  fun h =>
    let '(out, r') := uniform low high size r in
    (out, {| user := user h; rngs := <[self_id self := r']> (rngs h);
             rng_requests := rng_requests h |}).

(** [_rand_range(self, low=1.0, high=None, size=None)].  An argument
    left out (or, for [high] and [size], given as [None]) is [None]. *)
Definition _rand_range (self : instance) (low high : option Num)
    (size : option (list Z)) : SE heap Arr :=
  let low := default num_one low in
  let '(low, high) :=
    match high with
    | None => (num_zero, low)
    | Some hi => (low, hi)
    end in
  let size := default [] size in
  r <~ get_self_rng self ;;
  rng_uniform self r low high size.

(** ** [ImageAugmentor.__repr__] *)

Definition py_assert {S} (b : bool) (arg : string) : SE S unit :=
  if b then ret tt else raise (AssertionError arg).

(** [try: c  except AssertionError as e: h(e.args[0])]. *)
Definition except_AssertionError {S A} (c : SE S A) (h : string -> SE S A)
  : SE S A :=
  fun s =>
    match c s with
    | (Raise (AssertionError arg), s') => h arg s'
    | r => r
    end.

(** [xs[i]] on a tuple that may be [None]. *)
Definition py_getitem {S} (xs : option (list pyobj)) (i : Z) : SE S pyobj :=
  match xs with
  | None => raise TypeError
  | Some l =>
      let n := Z.of_nat (length l) in
      let j := if i <? 0 then n + i else i in
      if (0 <=? j) && (j <? n) then
        match l !! Z.to_nat j with
        | Some x => ret x
        | None => raise IndexError
        end
      else raise IndexError
  end.

Definition varargs_msg : string :=
  "The default __repr__ doesn't work for varargs!".
Definition kwargs_msg : string :=
  "The default __repr__ doesn't work for kwargs!".
Definition attr_msg (f classname : string) : string :=
  "Attribute " +:+ f +:+ " in " +:+ classname +:+
  " not found! Default __repr__ only works if attributes match the constructor.".

(** The loop [for idx, f in enumerate(fields)], from index [idx] on,
    with the [argstr] built so far. *)
Fixpoint repr_fields {S} (self : instance) (index_field_has_default : Z)
    (idx : Z) (fields : list string) (argstr : list string)
  : SE S (list string) :=
  match fields with
  | [] => ret argstr
  | f :: rest =>
      match attrs self !! f with
      | None => raise (AssertionError (attr_msg f (classname self)))
      | Some attr =>
          skip <~ (if index_field_has_default <=? idx then
                     d <~ py_getitem (defaults (init_argspec self))
                            (idx - index_field_has_default) ;;
                     ret (py_is attr d)
                   else ret false) ;;
          if (skip : bool) then
            repr_fields self index_field_has_default (idx + 1) rest argstr
          else
            repr_fields self index_field_has_default (idx + 1) rest
              (argstr ++ [f +:+ "=" +:+ pformat attr])
      end
  end.

(** [inspect.getargspec(self.__init__)] *)
Definition getargspec {S} (self : instance) : SE S ArgSpec :=
  match getargspec_raises self with
  | Some e => raise e
  | None => ret (init_argspec self)
  end.

(** The body of the [try] of [__repr__].  The loop reads the defaults
    of the signature that [getargspec] returned. *)
Definition repr_try {S} (self : instance) : SE S string :=
  argspec <~ getargspec self ;;
  py_assert (bool_decide (varargs argspec = None)) varargs_msg ;;;
  py_assert (bool_decide (keywords argspec = None)) kwargs_msg ;;;
  let fields := tail (args argspec) in
  let index_field_has_default :=
    Z.of_nat (length fields) -
    match defaults argspec with
    | None => 0
    | Some d => Z.of_nat (length d)
    end in
  argstr <~ repr_fields self index_field_has_default 0 fields [] ;;
  ret ("imgaug." +:+ classname self +:+ "(" +:+
       String.concat ", " argstr +:+ ")").

Definition __repr__ (self : instance) : SE world string :=
  except_AssertionError (repr_try self)
    (fun arg =>
       log_once arg ;;;
       ret (object_repr (self_id self) (classname self))).

(** [__str__ = __repr__] *)
Definition __str__ : instance -> SE world string := __repr__.

(** ** [ImageAugmentor.get_transform] and what uses it *)

(** The inherited legacy interface
    [augment_coords(self, coords, param)]: [param.apply_coords(coords)]. *)
Definition ImageAugmentor_augment_coords (coords : Coords) (p : param)
  : SE heap Coords :=
  match p with
  | PTransform t => apply_coords t coords
  | PObject _ (Some m) => m coords
  | PObject _ None => raise AttributeError
  | PNone => raise AttributeError
  end.

(** [self.augment_coords(coords, p)]: the override when there is one. *)
Definition augment_coords (h : hooks) (coords : Coords) (p : param)
  : SE heap Coords :=
  match augment_coords_override h with
  | Some f => f coords p
  | None => ImageAugmentor_augment_coords coords p
  end.

(** The local function [legacy_augment_coords] of [get_transform]. *)
Definition legacy_augment_coords (h : hooks) (coords : Coords) (p : param)
  : SE heap Coords :=
  except_AttributeError (call2 (_augment_coords h) coords p)
    (except_AttributeError (augment_coords h coords p)
       (ret coords)).

(** The two [try] blocks of [get_transform] that compute [p]. *)
Definition get_transform_params (h : hooks) (img : Img) : SE heap param :=
  let p := PNone in
  p <~ except_AttributeError (call1 (_get_augment_params h) img) (ret p) ;;
  p <~ except_AttributeError (call1 (get_augment_params h) img) (ret p) ;;
  ret p.

Definition ImageAugmentor_get_transform (self : instance) (h : hooks)
    (img : Img) : SE world Transform :=
  p <~ lift (get_transform_params h img) ;;
  match p with
  | PTransform t => ret t
  | _ =>
      name <~ __str__ self ;;
      ret (TransformFactory ("LegacyConversion -- " +:+ name)
             (fun img => call2 (_augment h) img p)
             (fun coords => legacy_augment_coords h coords p))
  end.

(** ** [PhotometricAugmentor] *)

(** [_get_params(self, _)]: [None] unless a subclass overrides it. *)
Definition _get_params (override : option (Img -> SE heap param)) (img : Img)
  : SE heap param :=
  match override with
  | Some f => f img
  | None => ret PNone
  end.

Definition PhotometricAugmentor_get_transform (self : instance)
    (override : option (Img -> SE heap param))
    (_impl : option (Img -> param -> SE heap Img)) (img : Img)
  : SE world Transform :=
  p <~ lift (_get_params override img) ;;
  name <~ __str__ self ;;
  ret (PhotometricTransform (fun img => call2 _impl img p) name).

(** ** [AugmentorList] *)

Definition AugmentorList_get_transform (img : Img) : SE world Transform :=
  raise (RuntimeError
    "Cannot simply get transform of a AugmentorList without running the augmentation!").

(** ** Method dispatch *)

(** [a.get_transform(img)] *)
Definition get_transform (a : augmentor) (img : Img) : SE world Transform :=
  match a with
  | ImageAugmentor self h => ImageAugmentor_get_transform self h img
  | CustomAugmentor _ f => lift (f img)
  | PhotometricAugmentor self gp impl =>
      PhotometricAugmentor_get_transform self gp impl img
  | AugmentorList _ _ => AugmentorList_get_transform img
  end.

(** [ImageAugmentor.augment] *)
Definition ImageAugmentor_augment (a : augmentor) (img : Img) : SE world Img :=
  t <~ get_transform a img ;;
  lift (apply_image t img).

(** [ImageAugmentor.augment_return_tfm] *)
Definition ImageAugmentor_augment_return_tfm (a : augmentor) (img : Img)
  : SE world (Img * Transform) :=
  t <~ get_transform a img ;;
  img' <~ lift (apply_image t img) ;;
  ret (img', t).

(** The loop [for a in self.augmentors] of
    [AugmentorList.augment_return_tfm]. *)
Fixpoint augment_stages (augmentors : list augmentor) (img : Img)
    (tfms : list Transform) : SE world (Img * list Transform) :=
  match augmentors with
  | [] => ret (img, tfms)
  | a :: rest =>
      t <~ get_transform a img ;;
      img' <~ lift (apply_image t img) ;;
      augment_stages rest img' (tfms ++ [t])
  end.

Definition AugmentorList_augment_return_tfm (augmentors : list augmentor)
    (img : Img) : SE world (Img * Transform) :=
  of_result (check_dtype img) ;;;
  py_assert (bool_decide (ndim img ∈ [2; 3])) (pretty (ndim img)) ;;;
  r <~ augment_stages augmentors img [] ;;
  ret (fst r, TransformList (snd r)).

(** [a.augment_return_tfm(img)] *)
Definition augment_return_tfm (a : augmentor) (img : Img)
  : SE world (Img * Transform) :=
  match a with
  | AugmentorList _ augmentors => AugmentorList_augment_return_tfm augmentors img
  | _ => ImageAugmentor_augment_return_tfm a img
  end.

(** [a.augment(img)]; for a list, [self.augment_return_tfm(d)[0]]. *)
Definition augment (a : augmentor) (img : Img) : SE world Img :=
  match a with
  | AugmentorList _ augmentors =>
      r <~ AugmentorList_augment_return_tfm augmentors img ;; ret (fst r)
  | _ => ImageAugmentor_augment a img
  end.

(** [a.reset_state()]; [AugmentorList.reset_state] calls the inherited
    one and then [a.reset_state()] for each [a] in [self.augmentors]. *)
Fixpoint reset_state (a : augmentor) : SE heap unit :=
  match a with
  | AugmentorList self augmentors =>
      ImageAugmentor_reset_state self ;;;
      (fix loop (l : list augmentor) : SE heap unit :=
         match l with
         | [] => ret tt
         | a' :: l' => reset_state a' ;;; loop l'
         end) augmentors
  | ImageAugmentor self _ => ImageAugmentor_reset_state self
  | CustomAugmentor self _ => ImageAugmentor_reset_state self
  | PhotometricAugmentor self _ _ => ImageAugmentor_reset_state self
  end.

(** [ImageAugmentor.__init__]: [self.reset_state()].  The fork hook it
    also registers only runs in a forked child and is left out.
    [AugmentorList.__init__] stores the list and calls this. *)
Definition __init__ (a : augmentor) : SE heap unit := reset_state a.

End Model.

Arguments heap C : clear implicits.
Arguments world C : clear implicits.

(** ** What the specification compares the code with *)

Section Reference.
Context `{C : Collaborators}.

(** "Manually applying each contained augmentor's [augment] in order",
    each stage consuming the previous stage's output image. *)
Fixpoint augment_in_order (augmentors : list augmentor) (img : Img)
  : SE (world C) Img :=
  match augmentors with
  | [] => ret img
  | a :: rest => img' <~ augment a img ;; augment_in_order rest img'
  end.

(** The per-stage transforms of a run: [tfms] lists, in order, the
    transform each augmentor produced for the image it was handed. *)
Fixpoint stage_transforms (augmentors : list augmentor) (img : Img)
    (w : world C) (tfms : list Transform) : Prop :=
  match augmentors, tfms with
  | [], [] => True
  | a :: rest, t :: ts =>
      exists w1 img1 w2,
        get_transform a img w = (Ok t, w1) /\
        lift (apply_image t img) w1 = (Ok img1, w2) /\
        stage_transforms rest img1 w2 ts
  | _, _ => False
  end.

(** The instances whose [reset_state] runs when [a.reset_state()] is
    called, in the order the specification gives: the augmentor itself
    and, for a list, the contained augmentors in sequence order. *)
Fixpoint reset_order (a : augmentor) : list N :=
  match a with
  | AugmentorList self augmentors =>
      self_id self :: flat_map reset_order augmentors
  | _ => [self_id (instance_of a)]
  end.


(** [0 if argspec.defaults is None else len(argspec.defaults)] *)
Definition defaults_len (a : ArgSpec) : Z :=
  match defaults a with
  | None => 0
  | Some d => Z.of_nat (length d)
  end.

(** The value a run returned, if it returned. *)
Definition fst_ok {S A} (out : result A * S) : option A :=
  match fst out with
  | Ok a => Some a
  | Raise _ => None
  end.

Definition is_AugmentorList (a : augmentor) : bool :=
  match a with
  | AugmentorList _ _ => true
  | _ => false
  end.


End Reference.

(** ** Stub collaborators, for running the code on concrete inputs *)

Module Stub.

(** Images, coordinates and parameter values are integers; every image
    is a supported two-axis one.  The generator state is a counter [r],
    and a draw returns [lo + (hi - lo) * (r mod 4) / 4] for each cell,
    which lies in [lo, hi) when [lo < hi]. *)
#[export] Instance stub : Collaborators := {|
  Img := Z;
  Coords := Z;
  ParamVal := Z;
  UserState := unit;
  RNG := nat;
  Num := Z;
  Arr := list Z;
  ndim := fun _ => 2;
  check_dtype := fun _ => Ok tt;
  num_zero := 0;
  num_one := 1;
  uniform := fun lo hi size r =>
    (Ok (repeat (lo + (hi - lo) * Z.of_nat (r mod 4) / 4)
           (Z.to_nat (fold_right Z.mul 1 size))),
     S r);
  new_rng := fun _ n => (n + 2)%nat;
  object_repr := fun _ cn => "<" +:+ cn +:+ " object>"
|}.

Definition heap0 : heap stub :=
  {| user := tt; rngs := ∅; rng_requests := [] |}.

Definition world0 : world stub := {| mem := heap0; warned := [] |}.

(** [def __init__(self, angle, clip=True)] with [self.angle] and
    [self.clip] stored. *)
Definition rotation_argspec : ArgSpec :=
  {| args := ["self"; "angle"; "clip"]; varargs := None; keywords := None;
     defaults := Some [py_True] |}.

Definition int_30 : pyobj := {| py_id := 30; py_repr := pretty 30 |}.

Definition rotation (id : N) (clip : pyobj) : instance :=
  {| self_id := id; classname := "Rotation";
     init_argspec := rotation_argspec;
     attrs := {[ "angle" := int_30; "clip" := clip ]};
     getargspec_raises := None |}.

Definition no_hooks : hooks :=
  {| _get_augment_params := None; get_augment_params := None;
     _augment := None; _augment_coords := None;
     augment_coords_override := None |}.

(** Both parameter hooks defined: the private one answers 1, the
    public one 2; [_augment] adds the parameter to the image. *)
Definition both_hooks : hooks :=
  {| _get_augment_params := Some (fun _ => ret (PObject 1 None));
     get_augment_params := Some (fun _ => ret (PObject 2 None));
     _augment := Some (fun img p =>
                   match p with
                   | PObject v _ => ret (img + v)
                   | _ => ret img
                   end);
     _augment_coords := None;
     augment_coords_override := None |}.

Definition plus_100 : Transform :=
  TransformFactory "plus_100" (fun img => ret (img + 100)) (fun c => ret c).


(** Only legacy hooks, sampling a plain value. *)
Definition legacy_hooks : hooks :=
  {| _get_augment_params := None;
     get_augment_params := Some (fun img => ret (PObject (img * 2) None));
     _augment := Some (fun img p =>
                   match p with
                   | PObject v _ => ret (img + v)
                   | _ => ret img
                   end);
     _augment_coords := None;
     augment_coords_override := None |}.

(** Only the private parameter hook. *)
Definition private_hooks : hooks :=
  {| _get_augment_params := Some (fun img => ret (PObject (img + 3) None));
     get_augment_params := None;
     _augment := None; _augment_coords := None;
     augment_coords_override := None |}.

(** [def __init__(self, *args)], [def __init__(self, **kwargs)], and a
    constructor [(self, angle, clip=True)] that does not store [clip]. *)
Definition with_varargs : instance :=
  {| self_id := 31; classname := "Packed";
     init_argspec := {| args := ["self"]; varargs := Some "args";
                        keywords := None; defaults := None |};
     attrs := ∅; getargspec_raises := None |}.

Definition with_kwargs : instance :=
  {| self_id := 32; classname := "Keyed";
     init_argspec := {| args := ["self"]; varargs := None;
                        keywords := Some "kwargs"; defaults := None |};
     attrs := ∅; getargspec_raises := None |}.

Definition without_clip : instance :=
  {| self_id := 33; classname := "Rotation";
     init_argspec := rotation_argspec;
     attrs := {[ "angle" := int_30 ]}; getargspec_raises := None |}.

Definition aug1 : augmentor := ImageAugmentor (rotation 11 py_True) legacy_hooks.
Definition aug2 : augmentor := ImageAugmentor (rotation 12 py_False) both_hooks.
Definition brightness : augmentor :=
  PhotometricAugmentor (rotation 13 py_True) None
    (Some (fun img _ => ret (img + 7))).

Definition list_instance (id : N) : instance :=
  {| self_id := id; classname := "AugmentorList";
     init_argspec := {| args := ["self"; "augmentors"]; varargs := None;
                        keywords := None; defaults := None |};
     attrs := {[ "augmentors" := {| py_id := 99; py_repr := "[...]" |} ]};
     getargspec_raises := None |}.

Definition inner_list : augmentor := AugmentorList (list_instance 21) [aug1].
Definition outer_list : augmentor := AugmentorList (list_instance 22) [inner_list].
Definition flat_list : augmentor :=
  AugmentorList (list_instance 23) [aug1; aug2; brightness].

(** A second instance constructed like [aug1]. *)
Definition aug1_twin : augmentor :=
  ImageAugmentor (rotation 14 py_True) legacy_hooks.

End Stub.

(** ** The rest of the module *)

Section Rest.
Context `{C : Collaborators}.

(** [k.startswith('_')] *)
Definition starts_with_underscore (k : string) : bool :=
  match k with
  | String c _ => bool_decide (c = "_"%char)
  | EmptyString => false
  end.

(** [setattr(self, k, v)], on the attributes that [__repr__] reads.
    The attribute [rng] itself is kept in the heap; a parameter of
    that name is not modelled. *)
Definition setattr (self : instance) (k : string) (v : pyobj) : instance :=
  {| self_id := self_id self; classname := classname self;
     init_argspec := init_argspec self;
     attrs := <[k := v]> (attrs self);
     getargspec_raises := getargspec_raises self |}.

(** The loop [for k, v in params.items()] of [_init]. *)
Fixpoint _init_items (self : instance) (items : list (string * pyobj))
  : instance :=
  match items with
  | [] => self
  | (k, v) :: rest =>
      if bool_decide (k <> "self") && negb (starts_with_underscore k)
      then _init_items (setattr self k v) rest
      else _init_items self rest
  end.

(** [_init(self, params=None)]: [params] is a dict, given by its items
    in order; [None] and the empty dict are falsy. *)
Definition _init (self : instance) (params : option (list (string * pyobj)))
  : instance :=
  match params with
  | Some (item :: rest) => _init_items self (item :: rest)
  | Some [] => self
  | None => self
  end.

(** The test [_init] makes on a key:
    [k != 'self' and not k.startswith('_')]. *)
Definition storable (k : string) : bool :=
  bool_decide (k <> "self") && negb (starts_with_underscore k).

(** [_reset_augmentor_after_fork(aug_ref)]: [aug_ref()] is the
    augmentor when it is still alive, [None] otherwise.  [if aug:]
    tests the truth value: [None] is false, and for an augmentor it is
    [truth aug], what Python gets from [__bool__] or [__len__] of its
    class, user code that may do anything; the classes of this module
    define neither, which makes every instance true. *)
Definition _reset_augmentor_after_fork
    (truth : augmentor -> SE (heap C) bool) (aug_ref : option augmentor)
  : SE (heap C) unit :=
  match aug_ref with
  | None => ret tt
  | Some aug =>
      b <~ truth aug ;;
      if (b : bool) then reset_state aug else ret tt
  end.

(** The truth value of an instance whose class defines neither
    [__bool__] nor [__len__]. *)
Definition always_true : augmentor -> SE (heap C) bool :=
  fun _ => ret true.

(** What may be passed as [augmentors] to [AugmentorList.__init__]. *)
Inductive pyarg : Type :=
| ArgList (l : list augmentor)
| ArgTuple (l : list augmentor)
| ArgOther (o : pyobj).

(** [AugmentorList.__init__(self, augmentors)]: the assertion, the
    assignment of [self.augmentors], and the inherited constructor.
    The constructed list is returned. *)
Definition AugmentorList__init__ (self : instance) (augmentors : pyarg)
  : SE (heap C) augmentor :=
  match augmentors with
  | ArgList l | ArgTuple l =>
      let a := AugmentorList self l in
      __init__ a ;;; ret a
  | ArgOther o => raise (AssertionError (py_repr o))
  end.

(** [ImageAugmentor.augment_return_params] *)
Definition ImageAugmentor_augment_return_params (a : augmentor) (d : Img)
  : SE (world C) (Img * Transform) :=
  t <~ get_transform a d ;;
  img' <~ lift (apply_image t d) ;;
  ret (img', t).

(** [a.augment_return_params(d)]; for a list,
    [self.augment_return_tfm(d)]. *)
Definition augment_return_params (a : augmentor) (d : Img)
  : SE (world C) (Img * Transform) :=
  match a with
  | AugmentorList _ augmentors => AugmentorList_augment_return_tfm augmentors d
  | _ => ImageAugmentor_augment_return_params a d
  end.

(** [augment_with_params(self, d, param)]: [param.apply_image(d)] *)
Definition augment_with_params (d : Img) (param : Transform)
  : SE (heap C) Img :=
  apply_image param d.



(** [t] maps images by a function and leaves the heap alone. *)
Definition pure_image (t : Transform) : Prop :=
  exists f : Img -> Img, forall i hp, apply_image t i hp = (Ok (f i), hp).

End Rest.

Module StubChecked.

(** Collaborators that do check the image: an image is the number of
    its axes, and [check_dtype] rejects negative ones. *)
Definition checked : Collaborators := {|
  Img := Z;
  Coords := Z;
  ParamVal := Z;
  UserState := unit;
  RNG := nat;
  Num := Z;
  Arr := list Z;
  ndim := fun img => img;
  check_dtype := fun img => if img <? 0 then Raise TypeError else Ok tt;
  num_zero := 0;
  num_one := 1;
  uniform := fun lo hi size r => (Ok [lo; hi], S r);
  new_rng := fun _ n => n;
  object_repr := fun _ cn => "<" +:+ cn +:+ ">"
|}.

Definition heap0 : heap checked :=
  {| user := (tt : @UserState checked); rngs := ∅; rng_requests := [] |}.

Definition world0 : world checked :=
  {| mem := (heap0 : heap checked); warned := [] |}.

Definition plain : instance :=
  {| self_id := 5; classname := "Plain";
     init_argspec := {| args := ["self"]; varargs := None; keywords := None;
                        defaults := None |};
     attrs := ∅; getargspec_raises := None |}.

(** An augmentor overriding [get_transform]: it adds one axis. *)
Definition add_axis : augmentor (C := checked) :=
  CustomAugmentor (C := checked) plain
    (fun _ => ret (TransformFactory (C := checked) "add_axis"
                     (fun img => ret (img + 1)) (fun c => ret c))).

End StubChecked.

Module StubMore.
Import Stub.

(** A constructor [(self, scale, angle=0, clip=True)]; the dictionary
    that [locals()] gives in it; and the bare instance before
    [_init]. *)
Definition zoom_argspec : ArgSpec :=
  {| args := ["self"; "scale"; "angle"; "clip"]; varargs := None;
     keywords := None;
     defaults := Some [ {| py_id := 40; py_repr := "0" |}; py_True ] |}.

Definition zoom_bare : instance :=
  {| self_id := 41; classname := "Zoom"; init_argspec := zoom_argspec;
     attrs := ∅; getargspec_raises := None |}.

Definition zoom_locals : list (string * pyobj) :=
  [ ("self", {| py_id := 41; py_repr := "<Zoom>" |});
    ("scale", {| py_id := 42; py_repr := "2" |});
    ("angle", {| py_id := 43; py_repr := "15" |});
    ("clip", py_True);
    ("_cache", {| py_id := 44; py_repr := "{}" |}) ].

(** A coordinate hook that answers, and one that raises
    [AttributeError] from inside. *)
Definition coords_hooks : hooks :=
  {| _get_augment_params := None; get_augment_params := None;
     _augment := None;
     _augment_coords := Some (fun c _ => ret (c + 1));
     augment_coords_override := Some (fun c _ => ret (c + 2)) |}.

Definition failing_coords_hooks : hooks :=
  {| _get_augment_params := None; get_augment_params := None;
     _augment := None;
     _augment_coords := Some (fun _ _ => raise AttributeError);
     augment_coords_override := Some (fun c _ => ret (c + 2)) |}.

(** Parameter hooks that raise. *)
Definition raising_private_hooks : hooks :=
  {| _get_augment_params := Some (fun _ => raise AttributeError);
     get_augment_params := None;
     _augment := None; _augment_coords := None;
     augment_coords_override := None |}.

Definition crashing_private_hooks : hooks :=
  {| _get_augment_params := Some (fun _ => raise (OtherError 7));
     get_augment_params := Some (fun _ => ret (PObject 2 None));
     _augment := None; _augment_coords := None;
     augment_coords_override := None |}.

Definition public_raising_hooks : hooks :=
  {| _get_augment_params := Some (fun _ => ret (PObject 1 None));
     get_augment_params := Some (fun _ => raise AttributeError);
     _augment := None; _augment_coords := None;
     augment_coords_override := None |}.

(** Both coordinate attempts raise [AttributeError]. *)
Definition raising_coords_hooks : hooks :=
  {| _get_augment_params := None; get_augment_params := None;
     _augment := None;
     _augment_coords := Some (fun _ _ => raise AttributeError);
     augment_coords_override := None |}.





(** A photometric augmentor that overrides [_get_params]. *)
Definition contrast_params : Img -> SE (heap stub) param :=
  fun img => ret (PObject (img + 1) None).

Definition contrast_impl : Img -> param -> SE (heap stub) Img :=
  fun img p =>
    match p with
    | PObject v _ => ret (img * v)
    | _ => ret img
    end.

Definition contrast : augmentor :=
  PhotometricAugmentor (rotation 16 py_True)
    (Some contrast_params) (Some contrast_impl).

(** An augmentor that overrides [get_transform] and always plans
    [plus_100]. *)
Definition plus_100_aug : augmentor :=
  CustomAugmentor (rotation 15 py_True) (fun _ => ret plus_100).

(** The parameter hooks of [legacy_hooks], and nothing to apply. *)
Definition plan_only_hooks : hooks :=
  {| _get_augment_params := None;
     get_augment_params := get_augment_params legacy_hooks;
     _augment := None; _augment_coords := None;
     augment_coords_override := None |}.


(** Truth values: a list class with [__len__] giving the number of
    its augmentors, and a class whose [__bool__] raises. *)
Definition sized_truth (a : augmentor) : SE (heap stub) bool :=
  match a with
  | AugmentorList _ augmentors => ret (negb (Nat.eqb (length augmentors) 0))
  | _ => ret true
  end.

Definition failing_truth (a : augmentor) : SE (heap stub) bool :=
  raise TypeError.

End StubMore.

(** * Theorems *)

(** Unfolding the monad. *)
Ltac run :=
  unfold call1, call2, py_assert, of_result in *;
  unfold lift, except_AttributeError, except_AssertionError, bind, ret,
    raise in *;
  cbn beta zeta iota delta [fst snd mem warned] in *.

Section Parameters.
Context `{C : Collaborators}.

(** What the parameter resolution of [get_transform] does.  It
    attempts the private hook
    [_get_augment_params] first and the public hook [get_augment_params]
    second.  When neither is defined the parameter is [None]; when one
    is defined and answers, its answer is the parameter; when both are
    defined and answer, the public hook runs in the state the private
    one left and its answer, the later one, is the parameter. *)
Theorem get_transform_params_resolution (h : hooks) (img : Img) (hp : heap C) :
  (_get_augment_params h = None -> get_augment_params h = None ->
   get_transform_params h img hp = (Ok PNone, hp)) /\
  (forall f p h1,
     _get_augment_params h = Some f -> get_augment_params h = None ->
     f img hp = (Ok p, h1) ->
     get_transform_params h img hp = (Ok p, h1)) /\
  (forall g p h1,
     _get_augment_params h = None -> get_augment_params h = Some g ->
     g img hp = (Ok p, h1) ->
     get_transform_params h img hp = (Ok p, h1)) /\
  (forall f g p1 h1 p2 h2,
     _get_augment_params h = Some f -> get_augment_params h = Some g ->
     f img hp = (Ok p1, h1) -> g img h1 = (Ok p2, h2) ->
     get_transform_params h img hp = (Ok p2, h2)).
Proof.
  unfold get_transform_params.
  repeat split.
  - intros Hf Hg. rewrite Hf, Hg. reflexivity.
  - intros f p h1 Hf Hg Hrun. rewrite Hf, Hg. run. rewrite Hrun. reflexivity.
  - intros g p h1 Hf Hg Hrun. rewrite Hf, Hg. run. rewrite Hrun. reflexivity.
  - intros f g p1 h1 p2 h2 Hf Hg Hrun1 Hrun2. rewrite Hf, Hg. run.
    rewrite Hrun1, Hrun2. reflexivity.
Qed.

(** ** The default representation *)

(** Inside the loop the index into [argspec.defaults] is in range. *)
Lemma py_getitem_in_range {S} (a : ArgSpec) (i : Z) (s : S) :
  0 <= i < defaults_len a ->
  exists d, py_getitem (defaults a) i s = (Ok d, s).
Proof.
  unfold defaults_len, py_getitem. intros Hi.
  destruct (defaults a) as [l|]; [|lia].
  destruct (Z.ltb_spec i 0) as [?|_]; [lia|].
  destruct (Z.leb_spec 0 i) as [_|?]; [|lia].
  destruct (Z.ltb_spec i (Z.of_nat (length l))) as [_|?]; [|lia].
  cbn [andb].
  destruct (lookup_lt_is_Some_2 l (Z.to_nat i)) as [x Hx]; [lia|].
  rewrite Hx. exists x. reflexivity.
Qed.

(** The loop either finishes or fails its own assertion, on the first
    field without an attribute; it changes no state. *)
Lemma repr_fields_outcome {S} (self : instance) (fields : list string) :
  forall (idx : Z) (argstr : list string) (s : S),
    0 <= idx ->
    let k := idx + Z.of_nat (length fields) - defaults_len (init_argspec self) in
    (Forall (fun f => is_Some (attrs self !! f)) fields /\
     exists l, repr_fields self k idx fields argstr s = (Ok l, s)) \/
    (exists f, f ∈ fields /\ attrs self !! f = None /\
       repr_fields self k idx fields argstr s =
       (Raise (AssertionError (attr_msg f (classname self))), s)).
Proof.
  induction fields as [|f rest IH]; intros idx argstr s Hidx k.
  - left. split; [constructor|]. exists argstr. reflexivity.
  - cbn [repr_fields].
    destruct (attrs self !! f) as [attr|] eqn:Hattr.
    2:{ right. exists f. split; [left|]. split; [exact Hattr|reflexivity]. }
    assert (Hk : k = (idx + 1) + Z.of_nat (length rest)
                     - defaults_len (init_argspec self)).
    { subst k. cbn [length]. lia. }
    assert (Hstep : exists b : bool,
      (if k <=? idx
       then d <~ py_getitem (defaults (init_argspec self)) (idx - k) ;;
            ret (py_is attr d)
       else ret false) s = (Ok b, s)).
    { destruct (Z.leb_spec k idx) as [Hle|_].
      - destruct (py_getitem_in_range (init_argspec self) (idx - k) s)
          as [d Hd].
        { subst k. cbn [length] in *. lia. }
        exists (py_is attr d). unfold bind. rewrite Hd. reflexivity.
      - exists false. reflexivity. }
    destruct Hstep as [b Hb].
    match goal with
    | |- context [bind ?c ?cont s] =>
        replace (bind c cont s) with (cont b s)
          by (unfold bind at 1; rewrite Hb; reflexivity)
    end.
    assert (Hnext : forall acc,
      (Forall (fun f => is_Some (attrs self !! f)) (f :: rest) /\
       exists l, repr_fields self k (idx + 1) rest acc s = (Ok l, s)) \/
      (exists f0, f0 ∈ f :: rest /\ attrs self !! f0 = None /\
         repr_fields self k (idx + 1) rest acc s =
         (Raise (AssertionError (attr_msg f0 (classname self))), s))).
    { intros acc. rewrite Hk.
      destruct (IH (idx + 1) acc s ltac:(lia)) as [[Hall Hok]|(f0 & Hin & Hno & Hr)].
      - left. split; [constructor; [rewrite Hattr; eauto|exact Hall]|exact Hok].
      - right. exists f0. split; [right; exact Hin|]. split; [exact Hno|exact Hr]. }
    destruct b; apply Hnext.
Qed.

(** The [try] body once [getargspec] has returned the signature, and
    when it raises instead. *)
Lemma repr_try_returned {S} (self : instance) :
  getargspec_raises self = None ->
  @repr_try S self =
  (py_assert (bool_decide (varargs (init_argspec self) = None)) varargs_msg ;;;
   py_assert (bool_decide (keywords (init_argspec self) = None)) kwargs_msg ;;;
   argstr <~ repr_fields self
               (Z.of_nat (length (tail (args (init_argspec self)))) -
                match defaults (init_argspec self) with
                | None => 0
                | Some d => Z.of_nat (length d)
                end) 0 (tail (args (init_argspec self))) [] ;;
   ret ("imgaug." +:+ classname self +:+ "(" +:+
        String.concat ", " argstr +:+ ")")).
Proof. intros H. unfold repr_try, getargspec. rewrite H. reflexivity. Qed.


(** When [getargspec] returns, [__repr__] returns and leaves the heap
    alone: it can only add a warning. *)
Lemma repr_returns (self : instance) (w : world C) :
  getargspec_raises self = None ->
  exists name w', __repr__ self w = (Ok name, w') /\ mem w' = mem w.
Proof.
  intros Hga.
  unfold __repr__. rewrite (repr_try_returned self Hga).
  unfold except_AssertionError, log_once.
  unfold py_assert.
  destruct (bool_decide (varargs (init_argspec self) = None)).
  2:{ run. destruct (bool_decide _); eauto. }
  destruct (bool_decide (keywords (init_argspec self) = None)).
  2:{ run. destruct (bool_decide _); eauto. }
  pose proof (repr_fields_outcome self (tail (args (init_argspec self)))
                0 [] w ltac:(lia)) as Hloop.
  cbn zeta in Hloop. unfold defaults_len in Hloop.
  rewrite Z.add_0_l in Hloop.
  destruct Hloop as [[_ [l Hl]]|(f & _ & _ & Hr)].
  - run. rewrite Hl. eauto.
  - run. rewrite Hr. destruct (bool_decide _); eauto.
Qed.

(** A message is emitted once: giving it again changes nothing. *)
Lemma log_once_again (msg : string) (w : world C) :
  log_once msg (snd (log_once msg w)) = (Ok tt, snd (log_once msg w)).
Proof.
  unfold log_once.
  destruct (bool_decide (msg ∈ warned w)) eqn:Hin; cbn [snd].
  - rewrite Hin. reflexivity.
  - cbn [warned].
    rewrite bool_decide_eq_true_2; [reflexivity|].
    apply elem_of_app. right. apply list_elem_of_singleton. reflexivity.
Qed.

(** C8, as the code has it.  For a constructor [(self, angle,
    clip=True)] and an instance that stores [angle] (printed 30) and
    [clip], the representation is [imgaug.ClassName(angle=30)] when
    [clip] is the default object itself, and
    [imgaug.ClassName(angle=30, clip=False)] when [clip] is [False]:
    the class name is prefixed with [imgaug.].  When the constructor
    has [*args] or [**kwargs], or a named parameter has no attribute,
    [log_once] is given the assertion message and the generic
    [object.__repr__] is returned; nothing is raised.  The signature
    is the one [inspect.getargspec] returned. *)
Theorem default_repr (self : instance) (w : world C) :
  getargspec_raises self = None ->
  let generic := object_repr (self_id self) (classname self) in
  (forall s0 a c,
     init_argspec self =
       {| args := [s0; "angle"; "clip"]; varargs := None; keywords := None;
          defaults := Some [py_True] |} ->
     attrs self !! "angle" = Some a -> pformat a = "30" ->
     attrs self !! "clip" = Some c ->
     (py_is c py_True = true ->
      __repr__ self w =
      (Ok ("imgaug." +:+ classname self +:+ "(angle=30)"), w)) /\
     (py_is c py_True = false -> pformat c = "False" ->
      __repr__ self w =
      (Ok ("imgaug." +:+ classname self +:+ "(angle=30, clip=False)"), w))) /\
  (varargs (init_argspec self) <> None ->
   __repr__ self w = (Ok generic, snd (log_once varargs_msg w))) /\
  (varargs (init_argspec self) = None ->
   keywords (init_argspec self) <> None ->
   __repr__ self w = (Ok generic, snd (log_once kwargs_msg w))) /\
  (varargs (init_argspec self) = None ->
   keywords (init_argspec self) = None ->
   forall f, f ∈ tail (args (init_argspec self)) -> attrs self !! f = None ->
   exists f', f' ∈ tail (args (init_argspec self)) /\
     attrs self !! f' = None /\
     __repr__ self w =
     (Ok generic, snd (log_once (attr_msg f' (classname self)) w))).
Proof.
  intros Hga. cbn zeta. split; [|repeat split].
  - intros s0 a c Hspec Ha Hfa Hcl.
    assert (Hrun : forall S (s : S),
      repr_fields self 1 0 ["angle"; "clip"] [] s =
      (Ok (if py_is c py_True then ["angle=30"]
           else ["angle=30"; "clip=" +:+ pformat c]), s)).
    { intros S s. cbn [repr_fields]. rewrite Ha, Hcl, Hspec, Hfa.
      run. lazy -[py_is py_True pformat String.app].
      destruct (py_is c py_True); reflexivity. }
    split.
    + intros Hc. unfold __repr__. rewrite (repr_try_returned self Hga). rewrite Hspec.
      cbn [varargs keywords args defaults tail].
      rewrite !bool_decide_eq_true_2 by reflexivity.
      run. rewrite Hrun, Hc. reflexivity.
    + intros Hc Hfalse. unfold __repr__. rewrite (repr_try_returned self Hga). rewrite Hspec.
      cbn [varargs keywords args defaults tail].
      rewrite !bool_decide_eq_true_2 by reflexivity.
      run. rewrite Hrun, Hc, Hfalse. reflexivity.
  - intros Hv. unfold __repr__. rewrite (repr_try_returned self Hga). run.
    rewrite bool_decide_eq_false_2 by exact Hv.
    unfold log_once. destruct (bool_decide _); reflexivity.
  - intros Hv Hk. unfold __repr__. rewrite (repr_try_returned self Hga). run.
    rewrite bool_decide_eq_true_2 by exact Hv.
    rewrite bool_decide_eq_false_2 by exact Hk.
    unfold log_once. destruct (bool_decide _); reflexivity.
  - intros Hv Hk f Hin Hno.
    pose proof (repr_fields_outcome self (tail (args (init_argspec self)))
                  0 [] w ltac:(lia)) as Hloop.
    cbn zeta in Hloop. unfold defaults_len in Hloop.
    rewrite Z.add_0_l in Hloop.
    destruct Hloop as [[Hall _]|(f' & Hin' & Hno' & Hr)].
    + rewrite Forall_forall in Hall. apply Hall in Hin.
      rewrite Hno in Hin. destruct Hin as [? Hx]. discriminate Hx.
    + exists f'. split; [exact Hin'|]. split; [exact Hno'|].
      unfold __repr__. rewrite (repr_try_returned self Hga). run.
      rewrite bool_decide_eq_true_2 by exact Hv.
      rewrite bool_decide_eq_true_2 by exact Hk.
      rewrite Hr. unfold log_once. destruct (bool_decide _); reflexivity.
Qed.

(** ** Producing a transform *)

(** [str(self)] as [get_transform] uses it. *)
Lemma str_returns (self : instance) (w : world C) :
  getargspec_raises self = None ->
  exists name w', __str__ self w = (Ok name, w') /\ mem w' = mem w.
Proof. exact (repr_returns self w). Qed.



(** The inherited [get_transform], step by step. *)
Lemma ImageAugmentor_get_transform_run (self : instance) (h : hooks)
    (img : Img) (w : world C) :
  get_transform (ImageAugmentor self h) img w =
  match lift (get_transform_params h img) w with
  | (Raise e, w1) => (Raise e, w1)
  | (Ok (PTransform t), w1) => (Ok t, w1)
  | (Ok p, w1) =>
      match __str__ self w1 with
      | (Ok name, w2) =>
          (Ok (TransformFactory ("LegacyConversion -- " +:+ name)
                 (fun i => call2 (_augment h) i p)
                 (fun c => legacy_augment_coords h c p)), w2)
      | (Raise e, w2) => (Raise e, w2)
      end
  end.
Proof.
  cbn [get_transform]. unfold ImageAugmentor_get_transform.
  unfold bind at 1.
  destruct (lift (get_transform_params h img) w) as [[p|e] w1];
    [|reflexivity].
  destruct p as [|t|v m]; [|reflexivity|]; unfold bind, ret;
    destruct (__str__ self w1) as [[name|e] w2]; reflexivity.
Qed.





(** C6.  Whatever transform a [PhotometricAugmentor] produces maps
    every coordinate set to itself, in any state, and its image
    application is [self._impl(img, p)] for the [p] that the
    parameter hook [_get_params] answered for the image, [None] when
    the hook is not overridden.  The transform is produced whenever
    the hook returns and [str(self)] does, and an exception of the
    hook leaves [get_transform]. *)
Theorem PhotometricAugmentor_get_transform_identity_coords (self : instance)
    (gp : option (Img -> SE (heap C) param))
    (impl : option (Img -> param -> SE (heap C) Img))
    (img : Img) (w : world C) :
  (forall t w',
     get_transform (PhotometricAugmentor self gp impl) img w = (Ok t, w') ->
     (forall coords hp, apply_coords t coords hp = (Ok coords, hp)) /\
     exists p,
       match gp with
       | Some f => fst (f img (mem w))
       | None => Ok PNone
       end = Ok p /\
       (forall k, impl = Some k ->
          forall i hp, apply_image t i hp = k i p hp) /\
       (impl = None ->
          forall i hp, apply_image t i hp = (Raise AttributeError, hp))) /\
  (getargspec_raises self = None ->
   forall p h1,
     match gp with
     | Some f => f img (mem w)
     | None => (Ok PNone, mem w)
     end = (Ok p, h1) ->
     exists t w',
       get_transform (PhotometricAugmentor self gp impl) img w = (Ok t, w') /\
       mem w' = h1) /\
  (forall f e h1,
     gp = Some f -> f img (mem w) = (Raise e, h1) ->
     get_transform (PhotometricAugmentor self gp impl) img w =
     (Raise e, {| mem := h1; warned := warned w |})).
Proof.
  assert (Hrun : get_transform (PhotometricAugmentor self gp impl) img w =
    match match gp with
          | Some f => f img (mem w)
          | None => (Ok PNone, mem w)
          end with
    | (Ok p, h1) =>
        match __str__ self {| mem := h1; warned := warned w |} with
        | (Ok name, w2) =>
            (Ok (PhotometricTransform (fun i => call2 impl i p) name), w2)
        | (Raise e, w2) => (Raise e, w2)
        end
    | (Raise e, h1) => (Raise e, {| mem := h1; warned := warned w |})
    end).
  { cbn [get_transform]. unfold PhotometricAugmentor_get_transform.
    unfold bind, lift, _get_params, ret.
    destruct gp as [f|].
    - destruct (f img (mem w)) as [[p|e] h1]; [|reflexivity].
      destruct (__str__ self _) as [[name|e] w2]; reflexivity.
    - destruct (__str__ self _) as [[name|e] w2]; reflexivity. }
  split; [|split].
  - intros t w' Hgt. rewrite Hrun in Hgt.
    assert (Hshape : exists p name,
      match gp with
      | Some f => fst (f img (mem w))
      | None => Ok PNone
      end = Ok p /\
      t = PhotometricTransform (fun i => call2 impl i p) name).
    { destruct gp as [f|].
      - destruct (f img (mem w)) as [[p|e] h1]; [|discriminate].
        destruct (__str__ self _) as [[name|e] w2]; [|discriminate].
        injection Hgt as <- _. eauto.
      - destruct (__str__ self _) as [[name|e] w2]; [|discriminate].
        injection Hgt as <- _. eauto. }
    destruct Hshape as (p & name & Hp & ->).
    split; [reflexivity|]. exists p. split; [exact Hp|].
    cbn [apply_image]. split.
    + intros k ->. reflexivity.
    + intros ->. reflexivity.
  - intros Hga p h1 Hp. rewrite Hrun, Hp.
    destruct (str_returns self {| mem := h1; warned := warned w |} Hga)
      as (name & w2 & Hstr & Hmem).
    rewrite Hstr. eauto.
  - intros f e h1 -> Hf. rewrite Hrun, Hf. reflexivity.
Qed.

(** ** Augmenting with legacy hooks *)



(** ** Augmenting with a list *)

(** The transforms collected so far only prefix the result. *)
Lemma augment_stages_acc (augmentors : list augmentor) :
  forall (img : Img) (acc : list Transform) (w : world C),
    augment_stages augmentors img acc w =
    match augment_stages augmentors img [] w with
    | (Ok r, w') => (Ok (fst r, acc ++ snd r), w')
    | (Raise e, w') => (Raise e, w')
    end.
Proof.
  induction augmentors as [|a rest IH]; intros img acc w.
  - cbn. rewrite app_nil_r. reflexivity.
  - cbn [augment_stages]. unfold bind.
    destruct (get_transform a img w) as [[t|e] w1]; [|reflexivity].
    destruct (lift (apply_image t img) w1) as [[img1|e] w2]; [|reflexivity].
    rewrite (IH img1 (acc ++ [t]) w2), (IH img1 ([] ++ [t]) w2).
    destruct (augment_stages rest img1 [] w2) as [[r|e] w3]; [|reflexivity].
    cbn [fst snd]. rewrite <- app_assoc. reflexivity.
Qed.

(** For an augmentor that is not a list, [augment] is the inherited
    one: get the transform, apply it. *)
Lemma augment_not_list (a : augmentor) (img : Img) :
  is_AugmentorList a = false ->
  augment a img = (t <~ get_transform a img ;; lift (apply_image t img)).
Proof. destruct a; [reflexivity..|discriminate]. Qed.

Lemma augment_stages_image (augmentors : list augmentor) :
  Forall (fun a => is_AugmentorList a = false) augmentors ->
  forall (img : Img) (w : world C),
    (r <~ augment_stages augmentors img [] ;; ret (fst r)) w =
    augment_in_order augmentors img w.
Proof.
  induction 1 as [|a rest Ha _ IH]; intros img w; [reflexivity|].
  cbn [augment_stages augment_in_order].
  rewrite (augment_not_list a img Ha). unfold bind.
  destruct (get_transform a img w) as [[t|e] w1]; [|reflexivity].
  destruct (lift (apply_image t img) w1) as [[img1|e] w2]; [|reflexivity].
  rewrite <- IH. unfold bind.
  rewrite (augment_stages_acc rest img1 ([] ++ [t]) w2).
  destruct (augment_stages rest img1 [] w2) as [[r|e] w3]; reflexivity.
Qed.

Lemma augment_stages_transforms (augmentors : list augmentor) :
  forall (img : Img) (w : world C) r w',
    augment_stages augmentors img [] w = (Ok r, w') ->
    length (snd r) = length augmentors /\
    stage_transforms augmentors img w (snd r).
Proof.
  induction augmentors as [|a rest IH]; intros img w r w' Hrun.
  - cbn in Hrun. injection Hrun as <- _. split; [reflexivity|exact I].
  - cbn [augment_stages] in Hrun. unfold bind in Hrun.
    destruct (get_transform a img w) as [[t|e] w1] eqn:Hgt; [|discriminate].
    destruct (lift (apply_image t img) w1) as [[img1|e] w2] eqn:Hap;
      [|discriminate].
    rewrite (augment_stages_acc rest img1 ([] ++ [t]) w2) in Hrun.
    destruct (augment_stages rest img1 [] w2) as [[r1|e] w3] eqn:Hrest;
      [|discriminate].
    injection Hrun as <- _. cbn [snd fst app].
    destruct (IH img1 w2 r1 w3 Hrest) as [Hlen Hst].
    split; [cbn [length]; rewrite Hlen; reflexivity|].
    cbn [stage_transforms]. exists w1, img1, w2. repeat split; assumption.
Qed.

(** What a list's [augment_return_tfm] returns, when it returns: the
    per-stage transforms, one per augmentor, packed in a
    [TransformList]. *)
Lemma AugmentorList_augment_return_tfm_collects (self : instance)
    (augmentors : list augmentor) (img : Img) (w : world C) img' t w' :
  augment_return_tfm (AugmentorList self augmentors) img w =
    (Ok (img', t), w') ->
  exists tfms,
    t = TransformList tfms /\
    length tfms = length augmentors /\
    stage_transforms augmentors img w tfms.
Proof.
  cbn [augment_return_tfm]. unfold AugmentorList_augment_return_tfm.
  intros Hrun. run.
  destruct (check_dtype img) as [[]|e]; [|discriminate].
  destruct (bool_decide (ndim img ∈ [2; 3])); [|discriminate].
  destruct (augment_stages augmentors img [] w) as [[r|e] w1] eqn:Hst;
    [|discriminate].
  injection Hrun as _ <- _.
  destruct (augment_stages_transforms augmentors img w r w1 Hst) as [Hlen Htf].
  exists (snd r). repeat split; assumption.
Qed.

(** C3, as the code has it.  For a list whose contained augmentors
    are not themselves lists, and an image that passes [check_dtype]
    and has 2 or 3 axes, [augment_return_tfm] yields the image (or the
    exception) that applying each contained augmentor's [augment] in
    order yields, and so does [augment]; and when it returns, the
    transform is a [TransformList] of exactly as many transforms as
    there are augmentors, the per-stage ones, in order. *)
Theorem AugmentorList_augment_return_tfm_stages (self : instance)
    (augmentors : list augmentor) (img : Img) (w : world C) :
  check_dtype img = Ok tt ->
  ndim img = 2 \/ ndim img = 3 ->
  Forall (fun a => is_AugmentorList a = false) augmentors ->
  (r <~ augment_return_tfm (AugmentorList self augmentors) img ;;
   ret (fst r)) w = augment_in_order augmentors img w /\
  augment (AugmentorList self augmentors) img w =
  augment_in_order augmentors img w /\
  (forall img' t w',
     augment_return_tfm (AugmentorList self augmentors) img w =
     (Ok (img', t), w') ->
     exists tfms,
       t = TransformList tfms /\
       length tfms = length augmentors /\
       stage_transforms augmentors img w tfms).
Proof.
  intros Hdtype Hndim Hflat.
  assert (Hchk : bool_decide (ndim img ∈ [2; 3]) = true).
  { apply bool_decide_eq_true_2.
    destruct Hndim as [-> | ->]; [left|right; left]. }
  assert (Hbody : AugmentorList_augment_return_tfm augmentors img w =
    match augment_stages augmentors img [] w with
    | (Ok r, w') => (Ok (fst r, TransformList (snd r)), w')
    | (Raise e, w') => (Raise e, w')
    end).
  { unfold AugmentorList_augment_return_tfm. rewrite Hdtype, Hchk.
    run. destruct (augment_stages augmentors img [] w) as [[r|e] w'];
      reflexivity. }
  assert (Himg : (r <~ AugmentorList_augment_return_tfm augmentors img ;;
                  ret (fst r)) w = augment_in_order augmentors img w).
  { rewrite <- (augment_stages_image augmentors Hflat img w).
    unfold bind. rewrite Hbody.
    destruct (augment_stages augmentors img [] w) as [[r|e] w'];
      reflexivity. }
  split; [exact Himg|]. split; [exact Himg|].
  intros img' t w'. apply AugmentorList_augment_return_tfm_collects.
Qed.

(** C5.  [get_transform] on an [AugmentorList] raises [RuntimeError]
    for every list, image and state, and changes nothing.  The
    per-stage transforms of a list come from [augment_return_tfm],
    which applies the stages and collects them: whenever it returns,
    its transform is the [TransformList] of the per-stage transforms. *)
Theorem AugmentorList_get_transform_raises (self : instance)
    (augmentors : list augmentor) (img : Img) (w : world C) :
  (exists msg,
     get_transform (AugmentorList self augmentors) img w =
     (Raise (RuntimeError msg), w)) /\
  (forall img' t w',
     augment_return_tfm (AugmentorList self augmentors) img w =
       (Ok (img', t), w') ->
     exists tfms,
       t = TransformList tfms /\ stage_transforms augmentors img w tfms).
Proof.
  split; [eexists; reflexivity|].
  intros img' t w' Hrun.
  destruct (AugmentorList_augment_return_tfm_collects self augmentors img w
              img' t w' Hrun) as (tfms & Ht & _ & Hst).
  exists tfms. split; assumption.
Qed.

(** ** Resetting *)

(** Induction over augmentors, through the lists they contain. *)
Lemma augmentor_nested_ind (P : augmentor -> Prop) :
  (forall self h, P (ImageAugmentor self h)) ->
  (forall self f, P (CustomAugmentor self f)) ->
  (forall self gp impl, P (PhotometricAugmentor self gp impl)) ->
  (forall self augmentors,
     Forall P augmentors -> P (AugmentorList self augmentors)) ->
  forall a, P a.
Proof.
  intros H1 H2 H3 H4.
  fix IH 1. intros [self h|self f|self gp impl|self augmentors].
  - apply H1.
  - apply H2.
  - apply H3.
  - apply H4.
    refine ((fix go (l : list augmentor) : Forall P l :=
               match l with
               | [] => Forall_nil_2 P
               | a :: l' => Forall_cons_2 P a l' (IH a) (go l')
               end) augmentors).
Qed.

(** The inherited [reset_state] asks for one generator, for [self],
    and stores it. *)
Lemma ImageAugmentor_reset_state_run (self : instance) (hp : heap C) :
  ImageAugmentor_reset_state self hp =
  (Ok tt,
   {| user := user hp;
      rngs := <[self_id self := new_rng (self_id self)
                                  (length (rng_requests hp))]> (rngs hp);
      rng_requests := rng_requests hp ++ [self_id self] |}).
Proof. reflexivity. Qed.

(** Resetting any augmentor returns, asks for generators for exactly
    the instances of [reset_order], in that order, keeps every
    generator slot that was filled, and fills the augmentor's own. *)
Lemma reset_state_run (a : augmentor) :
  forall hp : heap C,
    fst (reset_state a hp) = Ok tt /\
    rng_requests (snd (reset_state a hp)) = rng_requests hp ++ reset_order a /\
    (forall i, is_Some (rngs hp !! i) ->
               is_Some (rngs (snd (reset_state a hp)) !! i)) /\
    is_Some (rngs (snd (reset_state a hp)) !! self_id (instance_of a)).
Proof.
  assert (Hleaf : forall (self : instance) (hp : heap C),
    fst (ImageAugmentor_reset_state self hp) = Ok tt /\
    rng_requests (snd (ImageAugmentor_reset_state self hp)) =
      rng_requests hp ++ [self_id self] /\
    (forall i, is_Some (rngs hp !! i) ->
       is_Some (rngs (snd (ImageAugmentor_reset_state self hp)) !! i)) /\
    is_Some (rngs (snd (ImageAugmentor_reset_state self hp)) !! self_id self)).
  { intros self hp. rewrite ImageAugmentor_reset_state_run. cbn [fst snd rngs
      rng_requests]. repeat split.
    - intros i Hi. destruct (decide (self_id self = i)) as [->|Hne].
      + rewrite lookup_insert_eq. eauto.
      + rewrite lookup_insert_ne by exact Hne. exact Hi.
    - rewrite lookup_insert_eq. eauto. }
  induction a as [self h|self f|self gp impl|self augmentors IH]
    using augmentor_nested_ind; intros hp; try apply Hleaf.
  cbn [reset_order instance_of].
  set (loop := fix loop (l : list augmentor) : SE (heap C) unit :=
         match l with
         | [] => ret tt
         | a' :: l' => reset_state a';;; loop l'
         end).
  set (hp0 := snd (ImageAugmentor_reset_state self hp)).
  assert (Hrun : reset_state (AugmentorList self augmentors) hp =
                 loop augmentors hp0) by reflexivity.
  rewrite Hrun. clear Hrun.
  destruct (Hleaf self hp) as (_ & Hreq0 & Hmono & Hown0).
  fold hp0 in Hreq0, Hmono, Hown0. clearbody hp0.
  replace (rng_requests hp ++ self_id self :: flat_map reset_order augmentors)
    with (rng_requests hp0 ++ flat_map reset_order augmentors)
    by (rewrite Hreq0, <- app_assoc; reflexivity).
  clear Hreq0.
  assert (Hloop : forall hq : heap C,
    fst (loop augmentors hq) = Ok tt /\
    rng_requests (snd (loop augmentors hq)) =
      rng_requests hq ++ flat_map reset_order augmentors /\
    (forall i, is_Some (rngs hq !! i) ->
       is_Some (rngs (snd (loop augmentors hq)) !! i))).
  { clear Hown0 Hmono hp0. induction IH as [|a rest Ha _ IHrest]; intros hq.
    - cbn. rewrite app_nil_r. auto.
    - cbn [loop flat_map]. fold loop. unfold bind.
      destruct (Ha hq) as (Hok & Hreq & Hkeep & _).
      destruct (reset_state a hq) as [[[]|e] h1]; cbn [fst snd] in *;
        [|discriminate].
      destruct (IHrest h1) as (Hok' & Hreq' & Hkeep').
      split; [exact Hok'|]. split.
      + rewrite Hreq', Hreq, <- app_assoc. reflexivity.
      + intros i Hi. apply Hkeep', Hkeep, Hi. }
  destruct (Hloop hp0) as (Hok & Hreq & Hkeep).
  repeat split; try assumption.
  - intros i Hi. apply Hkeep, Hmono, Hi.
  - apply Hkeep, Hown0.
Qed.







(** ** Drawing from the generator *)

(** What [_rand_range] does once [self.rng] is there. *)
Lemma _rand_range_with_rng (self : instance) (low high : option Num)
    (size : option (list Z)) (hp : heap C) (r : RNG) :
  rngs hp !! self_id self = Some r ->
  _rand_range self low high size hp =
  rng_uniform self r
    (match high with None => num_zero | Some _ => default num_one low end)
    (match high with None => default num_one low | Some hi => hi end)
    (default [] size) hp.
Proof.
  intros Hr. unfold _rand_range, get_self_rng.
  destruct high; unfold bind; rewrite Hr; reflexivity.
Qed.

Lemma _rand_range_without_rng (self : instance) (low high : option Num)
    (size : option (list Z)) (hp : heap C) :
  rngs hp !! self_id self = None ->
  _rand_range self low high size hp = (Raise AttributeError, hp).
Proof.
  intros Hr. unfold _rand_range, get_self_rng.
  destruct high; unfold bind; rewrite Hr; reflexivity.
Qed.

(** C9, as the code has it.  The constructor itself calls
    [reset_state], so an augmentor that was constructed and never
    explicitly reset owns a generator and [_rand_range] hands the draw
    to it: nothing fails for lack of a reset.  [_rand_range] raises
    [AttributeError] only on an instance whose [rng] was never
    assigned.  After [reset_state] the generator is there, and the
    draw returns whenever the generator itself does. *)
Theorem reset_before_use (a : augmentor) (low high : option Num)
    (size : option (list Z)) (hp : heap C) :
  let self := instance_of a in
  (rngs hp !! self_id self = None ->
   _rand_range self low high size hp = (Raise AttributeError, hp)) /\
  (fst (__init__ a hp) = Ok tt /\
   exists r lo hi sz,
     rngs (snd (__init__ a hp)) !! self_id self = Some r /\
     _rand_range self low high size (snd (__init__ a hp)) =
     rng_uniform self r lo hi sz (snd (__init__ a hp))) /\
  (fst (reset_state a hp) = Ok tt /\
   exists r lo hi sz,
     rngs (snd (reset_state a hp)) !! self_id self = Some r /\
     _rand_range self low high size (snd (reset_state a hp)) =
     rng_uniform self r lo hi sz (snd (reset_state a hp))) /\
  ((forall lo hi sz r, exists x r', uniform lo hi sz r = (Ok x, r')) ->
   exists x, fst (_rand_range self low high size (snd (reset_state a hp)))
             = Ok x).
Proof.
  cbn zeta.
  destruct (reset_state_run a hp) as (Hok & _ & _ & [r Hr]).
  assert (Hdraw : exists r lo hi sz,
    rngs (snd (reset_state a hp)) !! self_id (instance_of a) = Some r /\
    _rand_range (instance_of a) low high size (snd (reset_state a hp)) =
    rng_uniform (instance_of a) r lo hi sz (snd (reset_state a hp))).
  { exists r. do 3 eexists. split; [exact Hr|].
    apply _rand_range_with_rng. exact Hr. }
  split; [apply _rand_range_without_rng|].
  split; [split; [exact Hok|exact Hdraw]|].
  split; [split; [exact Hok|exact Hdraw]|].
  intros Htotal. destruct Hdraw as (r' & lo & hi & sz & _ & ->).
  unfold rng_uniform.
  destruct (Htotal lo hi sz r') as (x & r'' & ->). exists x. reflexivity.
Qed.

(** C10, as the code has it.  [_rand_range] raises [AttributeError]
    when [self.rng] was never assigned, and otherwise is the draw
    [rng.uniform(low, high, size)] on the instance's own generator,
    where: with no bound given the range is from 0 to 1.0; with only
    [low] given it is from 0 to [low]; with only [high] given it is
    from 1.0 to [high]; with both given it is from [low] to [high];
    and the shape is [[]] (a scalar draw) when no size is given, the
    given size otherwise. *)
Theorem rand_range_draw (self : instance) (hp : heap C) :
  (rngs hp !! self_id self = None ->
   forall low high size,
     _rand_range self low high size hp = (Raise AttributeError, hp)) /\
  (forall r, rngs hp !! self_id self = Some r ->
     (forall size,
        _rand_range self None None size hp =
        rng_uniform self r num_zero num_one (default [] size) hp) /\
     (forall b size,
        _rand_range self (Some b) None size hp =
        rng_uniform self r num_zero b (default [] size) hp) /\
     (forall hi size,
        _rand_range self None (Some hi) size hp =
        rng_uniform self r num_one hi (default [] size) hp) /\
     (forall lo hi size,
        _rand_range self (Some lo) (Some hi) size hp =
        rng_uniform self r lo hi (default [] size) hp) /\
     (forall low high,
        _rand_range self low high None hp =
        _rand_range self low high (Some []) hp) /\
     (forall low high shape, exists lo hi,
        _rand_range self low high (Some shape) hp =
        rng_uniform self r lo hi shape hp)).
Proof.
  split.
  - intros Hr low high size. apply _rand_range_without_rng. exact Hr.
  - intros r Hr.
    split; [intros size; apply (_rand_range_with_rng _ None None _ _ _ Hr)|].
    split; [intros b size;
            apply (_rand_range_with_rng _ (Some b) None _ _ _ Hr)|].
    split; [intros hi size;
            apply (_rand_range_with_rng _ None (Some hi) _ _ _ Hr)|].
    split; [intros lo hi size;
            apply (_rand_range_with_rng _ (Some lo) (Some hi) _ _ _ Hr)|].
    split.
    + intros low high.
      rewrite (_rand_range_with_rng _ low high None _ _ Hr).
      rewrite (_rand_range_with_rng _ low high (Some []) _ _ Hr).
      reflexivity.
    + intros low high shape. do 2 eexists.
      apply (_rand_range_with_rng _ low high (Some shape) _ _ Hr).
Qed.

End Parameters.

(** * The code on concrete inputs *)

Section Concrete.
Import Stub.

(** ** Parameter resolution (C1) *)

Lemma get_transform_params_resolution_witness :
  get_transform_params no_hooks 0 heap0 = (Ok PNone, heap0) /\
  get_transform_params private_hooks 4 heap0 = (Ok (PObject 7 None), heap0) /\
  get_transform_params legacy_hooks 4 heap0 = (Ok (PObject 8 None), heap0) /\
  get_transform_params both_hooks 0 heap0 = (Ok (PObject 2 None), heap0).
Proof.
  split; [|split; [|split]].
  - apply (get_transform_params_resolution no_hooks 0 heap0); reflexivity.
  - destruct (get_transform_params_resolution private_hooks 4 heap0)
      as (_ & H & _).
    eapply H; reflexivity.
  - destruct (get_transform_params_resolution legacy_hooks 4 heap0)
      as (_ & _ & H & _).
    eapply H; reflexivity.
  - destruct (get_transform_params_resolution both_hooks 0 heap0)
      as (_ & _ & _ & H).
    eapply H; reflexivity.
Defined.

(** C1, on the failing input.  Both hooks are defined and answer,
    the private one 1 and the public one 2: [get_transform] calls both
    and resolves the parameter to the public hook's answer, not to
    that of the private hook, which answered first.  The coordinate
    resolution next to it, [legacy_augment_coords], does give the
    private hook precedence: with a private hook answering [c + 1]
    and a public one answering [c + 2] it returns the private
    answer. *)
Lemma private_hook_does_not_win :
  fst (call1 (_get_augment_params both_hooks) 0 heap0) = Ok (PObject 1 None) /\
  fst (call1 (get_augment_params both_hooks) 0 heap0) = Ok (PObject 2 None) /\
  get_transform_params both_hooks 0 heap0 = (Ok (PObject 2 None), heap0) /\
  fst (get_transform_params both_hooks 0 heap0) <>
  fst (call1 (_get_augment_params both_hooks) 0 heap0) /\
  legacy_augment_coords StubMore.coords_hooks 10 PNone heap0 =
  call2 (_augment_coords StubMore.coords_hooks) 10 PNone heap0 /\
  legacy_augment_coords StubMore.coords_hooks 10 PNone heap0 = (Ok 11, heap0).
Proof.
  split; [reflexivity|]. split; [reflexivity|]. split; [reflexivity|].
  split; [|split; reflexivity].
  intros H. vm_compute in H. discriminate H.
Qed.

(** ** Legacy augmentation (C2) *)



(** ** Augmenting with a list (C3) *)

Lemma AugmentorList_augment_return_tfm_stages_witness :
  check_dtype (5 : Img) = Ok tt /\
  ndim (5 : Img) = 2 /\
  augment flat_list 5 world0 =
    augment_in_order [aug1; aug2; brightness] 5 world0 /\
  fst (augment flat_list 5 world0) = Ok 24 /\
  exists tfms,
    snd <$> fst_ok (augment_return_tfm flat_list 5 world0)
      = Some (TransformList tfms) /\
    length tfms = 3%nat.
Proof.
  destruct (AugmentorList_augment_return_tfm_stages (list_instance 23)
              [aug1; aug2; brightness] 5 world0)
    as (_ & Haug & Htf).
  - reflexivity.
  - left. reflexivity.
  - repeat constructor.
  - split; [reflexivity|]. split; [reflexivity|].
    split; [exact Haug|]. split; [vm_compute; reflexivity|].
    destruct (augment_return_tfm flat_list 5 world0) as [[[img' t]|e] w']
      eqn:Hrun; [|vm_compute in Hrun; discriminate Hrun].
    destruct (Htf img' t w' Hrun) as (tfms & -> & Hlen & _).
    exists tfms. split; [reflexivity|exact Hlen].
Defined.

(** A list that contains a list: the outer [augment_return_tfm] calls
    [get_transform] on the inner list and raises, while applying the
    contained augmentor's [augment] by hand returns an image. *)
Lemma nested_list_augment_return_tfm_raises :
  check_dtype (5 : Img) = Ok tt /\
  ndim (5 : Img) = 2 /\
  fst (augment_return_tfm outer_list 5 world0) =
    Raise (RuntimeError
      "Cannot simply get transform of a AugmentorList without running the augmentation!") /\
  fst (augment_in_order [inner_list] 5 world0) = Ok 15.
Proof. repeat split; vm_compute; reflexivity. Qed.

(** ** [get_transform] on a list (C5) *)

Lemma AugmentorList_get_transform_raises_witness :
  fst (get_transform flat_list 5 world0) =
    Raise (RuntimeError
      "Cannot simply get transform of a AugmentorList without running the augmentation!") /\
  exists img' tfms w',
    augment_return_tfm flat_list 5 world0 = (Ok (img', TransformList tfms), w') /\
    stage_transforms [aug1; aug2; brightness] 5 world0 tfms.
Proof.
  destruct (AugmentorList_get_transform_raises (list_instance 23)
              [aug1; aug2; brightness] 5 world0) as ([msg Hraise] & Hcollect).
  split; [reflexivity|].
  destruct (augment_return_tfm flat_list 5 world0) as [[[img' t]|e] w']
    eqn:Hrun; [|vm_compute in Hrun; discriminate Hrun].
  destruct (Hcollect img' t w' Hrun) as (tfms & -> & Hst).
  exists img', tfms, w'. split; [reflexivity|exact Hst].
Defined.

(** ** The inherited [get_transform] (C4) *)



(** ** [PhotometricAugmentor.get_transform] (C6) *)

Lemma PhotometricAugmentor_get_transform_identity_coords_witness :
  getargspec_raises (rotation 16 py_True) = None /\
  exists t w',
    get_transform StubMore.contrast 5 world0 = (Ok t, w') /\
    apply_coords t 9 heap0 = (Ok 9, heap0) /\
    apply_image t 5 heap0 = (Ok 30, heap0).
Proof.
  split; [reflexivity|].
  destruct (PhotometricAugmentor_get_transform_identity_coords
              (rotation 16 py_True)
              (Some StubMore.contrast_params) (Some StubMore.contrast_impl)
              5 world0) as (Hshape & Hret & _).
  destruct (Hret eq_refl _ _ eq_refl) as (t & w' & Hgt & _).
  destruct (Hshape t w' Hgt) as (Hid & p & Hp & Himg & _).
  exists t, w'. split; [exact Hgt|]. split; [apply Hid|].
  rewrite (Himg _ eq_refl).
  injection Hp as <-. reflexivity.
Defined.

(** ** Resetting a list (C7) *)



(** ** The default representation (C8) *)

Lemma default_repr_witness :
  __repr__ (rotation 1 py_True) world0 =
    (Ok "imgaug.Rotation(angle=30)", world0) /\
  __repr__ (rotation 1 py_False) world0 =
    (Ok "imgaug.Rotation(angle=30, clip=False)", world0) /\
  __repr__ with_varargs world0 =
    (Ok "<Packed object>",
     {| mem := heap0; warned := [varargs_msg] |}) /\
  __repr__ with_kwargs world0 =
    (Ok "<Keyed object>",
     {| mem := heap0; warned := [kwargs_msg] |}) /\
  __repr__ without_clip world0 =
    (Ok "<Rotation object>",
     {| mem := heap0; warned := [attr_msg "clip" "Rotation"] |}).
Proof.
  split; [|split; [|split; [|split]]].
  - destruct (default_repr (rotation 1 py_True) world0 eq_refl) as (H & _).
    destruct (H "self" int_30 py_True) as (Hsame & _);
      [reflexivity..|].
    apply Hsame. reflexivity.
  - destruct (default_repr (rotation 1 py_False) world0 eq_refl) as (H & _).
    destruct (H "self" int_30 py_False) as (_ & Hother);
      [reflexivity..|].
    apply Hother; reflexivity.
  - destruct (default_repr with_varargs world0 eq_refl) as (_ & H & _).
    rewrite H; [reflexivity|discriminate].
  - destruct (default_repr with_kwargs world0 eq_refl) as (_ & _ & H & _).
    rewrite H; [reflexivity | reflexivity | discriminate].
  - destruct (default_repr without_clip world0 eq_refl) as (_ & _ & _ & H).
    destruct (H eq_refl eq_refl "clip") as (f' & Hin & Hno & Hrun).
    + right. left.
    + reflexivity.
    + rewrite Hrun.
      assert (Hf : f' = "clip").
      { cbn in Hin. apply elem_of_cons in Hin as [->|Hin].
        - vm_compute in Hno. discriminate Hno.
        - apply elem_of_cons in Hin as [->|Hin]; [reflexivity|].
          inversion Hin. }
      rewrite Hf. reflexivity.
Defined.

(** The class name is printed with the [imgaug.] prefix, so the
    representation is neither [Rotation(angle=30)] nor
    [Rotation(angle=30, clip=False)]. *)
Lemma default_repr_has_imgaug_prefix :
  fst (__repr__ (rotation 1 py_True) world0) = Ok "imgaug.Rotation(angle=30)" /\
  fst (__repr__ (rotation 1 py_True) world0) <> Ok "Rotation(angle=30)" /\
  fst (__repr__ (rotation 1 py_False) world0) =
    Ok "imgaug.Rotation(angle=30, clip=False)" /\
  fst (__repr__ (rotation 1 py_False) world0) <>
    Ok "Rotation(angle=30, clip=False)".
Proof.
  split; [vm_compute; reflexivity|].
  split; [intros H; vm_compute in H; discriminate H|].
  split; [vm_compute; reflexivity|].
  intros H; vm_compute in H; discriminate H.
Qed.

(** ** Reset before use (C9) *)

Lemma reset_before_use_witness :
  rngs heap0 !! self_id (instance_of aug1) = None /\
  _rand_range (instance_of aug1) None None None heap0 =
    (Raise AttributeError, heap0) /\
  fst (reset_state aug1 heap0) = Ok tt /\
  exists x, fst (_rand_range (instance_of aug1) None None None
                   (snd (reset_state aug1 heap0))) = Ok x.
Proof.
  destruct (reset_before_use aug1 None None None heap0)
    as (Hno & _ & (Hok & _) & Hdraw).
  split; [reflexivity|].
  split; [apply Hno; reflexivity|].
  split; [exact Hok|].
  apply Hdraw. intros lo hi sz r. do 2 eexists. reflexivity.
Defined.

(** Two instances constructed alike and never explicitly reset: the
    constructor has given each a generator, and drawing returns. *)
Lemma constructed_augmentor_draws_without_reset :
  fst ((__init__ aug1 ;;;
        _rand_range (instance_of aug1) None None None) heap0) = Ok [0] /\
  fst ((__init__ aug1_twin ;;;
        _rand_range (instance_of aug1_twin) None None None) heap0) = Ok [0] /\
  (forall e,
     fst ((__init__ aug1 ;;;
           _rand_range (instance_of aug1) None None None) heap0) <> Raise e).
Proof.
  split; [vm_compute; reflexivity|]. split; [vm_compute; reflexivity|].
  intros e H. vm_compute in H. discriminate H.
Qed.

(** ** The uniform-sampling helper (C10) *)

Lemma rand_range_draw_witness :
  _rand_range (rotation 11 py_True) (Some 5) None None heap0 =
    (Raise AttributeError, heap0) /\
  (let hp := snd (__init__ aug1 heap0) in
   rngs hp !! 11%N = Some 2%nat /\
   fst (_rand_range (rotation 11 py_True) None None None hp) = Ok [0] /\
   fst (_rand_range (rotation 11 py_True) (Some 5) None None hp) = Ok [2] /\
   fst (_rand_range (rotation 11 py_True) (Some 4) (Some 8) (Some [3]) hp)
     = Ok [6; 6; 6]).
Proof.
  split.
  - apply (rand_range_draw (rotation 11 py_True) heap0). reflexivity.
  - cbn zeta.
    destruct (rand_range_draw (rotation 11 py_True)
                (snd (__init__ aug1 heap0))) as (_ & H).
    destruct (H 2%nat) as (H0 & H1 & _ & H2 & _); [reflexivity|].
    split; [reflexivity|].
    split; [rewrite H0; reflexivity|].
    split; [rewrite H1; reflexivity|].
    rewrite H2. reflexivity.
Defined.

(** With only one bound given, 5, the draw is made between 0 and 5:
    the stub generator's sample is 2, which is not in [0, 1). *)
Lemma one_bound_is_the_upper_bound :
  let hp := snd (__init__ aug1 heap0) in
  fst (_rand_range (rotation 11 py_True) (Some 5) None None hp) = Ok [2] /\
  fst (_rand_range (rotation 11 py_True) (Some 5) None None hp) <>
  fst (rng_uniform (rotation 11 py_True) 2%nat num_zero num_one [] hp) /\
  ~ (0 <= 2 < 1).
Proof.
  cbn zeta. split; [vm_compute; reflexivity|].
  split; [intros H; vm_compute in H; discriminate H|lia].
Qed.

End Concrete.

(** * Further properties of the module *)

Section MoreParameters.
Context `{C : Collaborators}.

(** ** [__repr__] *)





(** ** [_init] *)

Lemma _init_items_fixed (items : list (string * pyobj)) :
  forall self,
    self_id (_init_items self items) = self_id self /\
    classname (_init_items self items) = classname self /\
    init_argspec (_init_items self items) = init_argspec self.
Proof.
  induction items as [|[k v] rest IH]; intros self; [auto|].
  cbn [_init_items]. destruct (_ && _); [|apply IH].
  destruct (IH (setattr self k v)) as (H1 & H2 & H3). auto.
Qed.


(** A key that is not stored, or not given, keeps its attribute. *)
Lemma _init_items_other (items : list (string * pyobj)) (k : string) :
  storable k = false \/ k ∉ map fst items ->
  forall self, attrs (_init_items self items) !! k = attrs self !! k.
Proof.
  induction items as [|[k0 v0] rest IH]; intros Hk self; [reflexivity|].
  cbn [_init_items]. fold (storable k0).
  assert (Hrest : storable k = false \/ k ∉ map fst rest).
  { destruct Hk as [?|Hk]; [left; assumption|right].
    intros Hin. apply Hk. cbn. right. exact Hin. }
  destruct (storable k0) eqn:Hs0; [|apply IH, Hrest].
  rewrite (IH Hrest). cbn [setattr attrs].
  apply lookup_insert_ne. intros ->.
  destruct Hk as [Hk|Hk]; [congruence|apply Hk; cbn; left].
Qed.



(** X3.  [_init] stores the given parameters as attributes: with no
    dictionary or an empty one nothing changes; [self] and names that
    start with an underscore are never stored, and names that are not
    given keep their attribute; every other given name gets the given
    value (the keys of a dictionary are distinct); identity, class and
    constructor stay as they are. *)
Theorem init_attributes (self : instance)
    (params : option (list (string * pyobj))) :
  _init self None = self /\
  _init self (Some []) = self /\
  (forall k,
     k = "self" \/ starts_with_underscore k = true ->
     attrs (_init self params) !! k = attrs self !! k) /\
  (forall k,
     (forall items, params = Some items -> k ∉ map fst items) ->
     attrs (_init self params) !! k = attrs self !! k) /\
  (forall items k v,
     params = Some items -> NoDup (map fst items) -> (k, v) ∈ items ->
     k <> "self" -> starts_with_underscore k = false ->
     attrs (_init self params) !! k = Some v) /\
  self_id (_init self params) = self_id self /\
  classname (_init self params) = classname self /\
  init_argspec (_init self params) = init_argspec self.
Proof.
  assert (Hinit : forall items, _init self (Some items) = _init_items self items)
    by (intros [|? ?]; reflexivity).
  split; [reflexivity|]. split; [reflexivity|].
  split; [|split; [|split]].
  - intros k Hk. destruct params as [items|]; [|reflexivity].
    rewrite Hinit. apply _init_items_other. left. unfold storable.
    destruct Hk as [-> | ->]; [reflexivity|].
    rewrite andb_false_r. reflexivity.
  - intros k Hk. destruct params as [items|]; [|reflexivity].
    rewrite Hinit. apply _init_items_other. right. apply Hk. reflexivity.
  - intros items k v -> Hnd Hin Hself Hund. rewrite Hinit.
    assert (Hs : storable k = true).
    { unfold storable. rewrite Hund.
      rewrite bool_decide_eq_true_2 by exact Hself. reflexivity. }
    clear Hinit Hself Hund. revert self.
    induction items as [|[k0 v0] rest IH]; intros self; [inversion Hin|].
    cbn [map fst] in Hnd. apply NoDup_cons in Hnd as [Hfresh Hnd].
    cbn [_init_items]. fold (storable k0).
    apply elem_of_cons in Hin as [Heq|Hin].
    + injection Heq as Hk0 Hv0. subst k0 v0. rewrite Hs.
      rewrite (_init_items_other rest k (or_intror Hfresh)).
      cbn [setattr attrs]. apply lookup_insert_eq.
    + destruct (storable k0); apply (IH Hnd Hin).
  - destruct params as [items|]; [|auto].
    rewrite Hinit. apply _init_items_fixed.
Qed.


(** ** Generators *)

(** X5.  [_rand_range] touches nothing but the instance's own
    generator: the user state, the record of generator requests and
    every other instance's generator are as before, whether the draw
    returns or raises, and no generator appears or disappears.  When
    the instance has a generator, the outcome and the generator's next
    state both come from one [uniform] call on it. *)
Theorem rand_range_frame (self : instance) (low high : option Num)
    (size : option (list Z)) (hp : heap C) :
  let h' := snd (_rand_range self low high size hp) in
  user h' = user hp /\
  rng_requests h' = rng_requests hp /\
  (forall j, j <> self_id self -> rngs h' !! j = rngs hp !! j) /\
  (is_Some (rngs h' !! self_id self) <-> is_Some (rngs hp !! self_id self)) /\
  (forall r, rngs hp !! self_id self = Some r ->
     exists lo hi sz,
       fst (_rand_range self low high size hp) = fst (uniform lo hi sz r) /\
       rngs h' !! self_id self = Some (snd (uniform lo hi sz r))).
Proof.
  cbn zeta.
  destruct (rngs hp !! self_id self) as [r|] eqn:Hr.
  - rewrite (_rand_range_with_rng self low high size hp r Hr).
    unfold rng_uniform.
    match goal with
    | |- context [uniform ?lo ?hi ?sz r] =>
        destruct (uniform lo hi sz r) as [out r'] eqn:Hu
    end.
    cbn [fst snd user rngs rng_requests].
    repeat split; try reflexivity.
    + intros j Hj. apply lookup_insert_ne. congruence.
    + intros _. eauto.
    + intros _. rewrite lookup_insert_eq. eauto.
    + intros r0 Hr0. injection Hr0 as <-. do 3 eexists.
      rewrite Hu. cbn [fst snd]. split; [reflexivity|].
      apply lookup_insert_eq.
  - rewrite (_rand_range_without_rng self low high size hp Hr).
    cbn [fst snd]. rewrite Hr.
    repeat split; try reflexivity; try (intros H; exact H).
    intros r0 Hr0. discriminate Hr0.
Qed.

(** Resetting gives a generator to every instance it resets and
    leaves the other generators and the user state as they are. *)
Lemma reset_state_frame (a : augmentor) :
  forall hp : heap C,
    user (snd (reset_state a hp)) = user hp /\
    (forall i, i ∈ reset_order a ->
       is_Some (rngs (snd (reset_state a hp)) !! i)) /\
    (forall i, i ∉ reset_order a ->
       rngs (snd (reset_state a hp)) !! i = rngs hp !! i).
Proof.
  assert (Hleaf : forall (self : instance) (hp : heap C),
    user (snd (ImageAugmentor_reset_state self hp)) = user hp /\
    (forall i, i ∈ [self_id self] ->
       is_Some (rngs (snd (ImageAugmentor_reset_state self hp)) !! i)) /\
    (forall i, i ∉ [self_id self] ->
       rngs (snd (ImageAugmentor_reset_state self hp)) !! i = rngs hp !! i)).
  { intros self hp. rewrite ImageAugmentor_reset_state_run.
    cbn [snd user rngs]. split; [reflexivity|]. split.
    - intros i Hi. apply list_elem_of_singleton in Hi as ->.
      rewrite lookup_insert_eq. eauto.
    - intros i Hi. apply lookup_insert_ne. intros <-. apply Hi. left. }
  induction a as [self h|self f|self gp impl|self augmentors IH]
    using augmentor_nested_ind; intros hp; try apply Hleaf.
  cbn [reset_order].
  set (loop := fix loop (l : list augmentor) : SE (heap C) unit :=
         match l with
         | [] => ret tt
         | a' :: l' => reset_state a';;; loop l'
         end).
  set (hp0 := snd (ImageAugmentor_reset_state self hp)).
  assert (Hrun : reset_state (AugmentorList self augmentors) hp =
                 loop augmentors hp0) by reflexivity.
  rewrite Hrun. clear Hrun.
  destruct (Hleaf self hp) as (Hu0 & Hin0 & Hout0).
  fold hp0 in Hu0, Hin0, Hout0. clearbody hp0.
  assert (Hloop : forall hq : heap C,
    user (snd (loop augmentors hq)) = user hq /\
    (forall i, is_Some (rngs hq !! i) ->
       is_Some (rngs (snd (loop augmentors hq)) !! i)) /\
    (forall i, i ∈ flat_map reset_order augmentors ->
       is_Some (rngs (snd (loop augmentors hq)) !! i)) /\
    (forall i, i ∉ flat_map reset_order augmentors ->
       rngs (snd (loop augmentors hq)) !! i = rngs hq !! i)).
  { clear Hu0 Hin0 Hout0 hp0 hp.
    induction IH as [|a rest Ha _ IHrest]; intros hq.
    - cbn. repeat split; auto. intros i Hi. inversion Hi.
    - cbn [loop flat_map]. fold loop. unfold bind.
      destruct (reset_state_run a hq) as (Hok & _ & Hmono & _).
      destruct (Ha hq) as (Hu & Hin & Hout).
      destruct (reset_state a hq) as [[[]|e] h1]; cbn [fst snd] in *;
        [|discriminate].
      destruct (IHrest h1) as (Hu' & Hmono' & Hin' & Hout').
      split; [congruence|]. split; [|split].
      + intros i Hi. apply Hmono', Hmono, Hi.
      + intros i Hi. apply elem_of_app in Hi as [Hi|Hi].
        * apply Hmono', Hin, Hi.
        * apply Hin', Hi.
      + intros i Hi. rewrite Hout', Hout; [reflexivity| |];
          intros Hc; apply Hi, elem_of_app; [left|right]; exact Hc. }
  destruct (Hloop hp0) as (Hu & Hmono & Hin & Hout).
  split; [congruence|]. split.
  - intros i Hi. apply elem_of_cons in Hi as [->|Hi].
    + apply Hmono, Hin0. left.
    + apply Hin, Hi.
  - intros i Hi. rewrite Hout, Hout0; [reflexivity| |].
    + intros Hc. apply list_elem_of_singleton in Hc as ->. apply Hi. left.
    + intros Hc. apply Hi. right. exact Hc.
Qed.


(** X7.  The fork hook resets the augmentor exactly when the
    reference is alive and the augmentor is true.  On a reference
    whose augmentor is gone it does nothing at all.  On a live
    augmentor that is true it is [reset_state] of it, after which the
    augmentor owns a generator; when its class defines neither
    [__bool__] nor [__len__] that is always so, and the hook cannot
    raise.  A live augmentor that is false is not reset, and an
    exception of its truth test leaves the hook. *)
Theorem reset_after_fork (truth : augmentor -> SE (heap C) bool)
    (aug : augmentor) (hp : heap C) :
  _reset_augmentor_after_fork truth None hp = (Ok tt, hp) /\
  (forall h1, truth aug hp = (Ok true, h1) ->
     let h' := snd (_reset_augmentor_after_fork truth (Some aug) hp) in
     _reset_augmentor_after_fork truth (Some aug) hp = reset_state aug h1 /\
     fst (_reset_augmentor_after_fork truth (Some aug) hp) = Ok tt /\
     is_Some (rngs h' !! self_id (instance_of aug)) /\
     rng_requests h' = rng_requests h1 ++ reset_order aug /\
     (forall i, is_Some (rngs h1 !! i) -> is_Some (rngs h' !! i))) /\
  (forall h1, truth aug hp = (Ok false, h1) ->
     _reset_augmentor_after_fork truth (Some aug) hp = (Ok tt, h1)) /\
  (forall e h1, truth aug hp = (Raise e, h1) ->
     _reset_augmentor_after_fork truth (Some aug) hp = (Raise e, h1)) /\
  (_reset_augmentor_after_fork always_true (Some aug) hp = reset_state aug hp /\
   fst (_reset_augmentor_after_fork always_true (Some aug) hp) = Ok tt).
Proof.
  split; [reflexivity|].
  split; [|split; [|split]].
  - intros h1 Ht. cbn zeta.
    assert (Hrun : _reset_augmentor_after_fork truth (Some aug) hp
                   = reset_state aug h1)
      by (cbn [_reset_augmentor_after_fork]; unfold bind; rewrite Ht;
          reflexivity).
    rewrite Hrun.
    destruct (reset_state_run aug h1) as (Hok & Hreq & Hmono & Hown).
    auto.
  - intros h1 Ht. cbn [_reset_augmentor_after_fork]. unfold bind.
    rewrite Ht. reflexivity.
  - intros e h1 Ht. cbn [_reset_augmentor_after_fork]. unfold bind.
    rewrite Ht. reflexivity.
  - destruct (reset_state_run aug hp) as (Hok & _).
    split; [reflexivity|exact Hok].
Qed.

(** X8.  [AugmentorList.__init__] rejects an argument that is neither
    a list nor a tuple with an [AssertionError], before anything is
    reset.  Given a list or a tuple it returns the list augmentor, and
    construction has reset the list and then every contained
    augmentor, in order: each of them owns a generator afterwards. *)
Theorem AugmentorList_init (self : instance) (augmentors : pyarg)
    (hp : heap C) :
  (forall o, augmentors = ArgOther o ->
     AugmentorList__init__ self augmentors hp =
     (Raise (AssertionError (py_repr o)), hp)) /\
  (forall l, augmentors = ArgList l \/ augmentors = ArgTuple l ->
     let h' := snd (AugmentorList__init__ self augmentors hp) in
     fst (AugmentorList__init__ self augmentors hp) =
       Ok (AugmentorList self l) /\
     rng_requests h' =
       rng_requests hp ++ self_id self :: flat_map reset_order l /\
     (forall i, i ∈ self_id self :: flat_map reset_order l ->
        is_Some (rngs h' !! i))).
Proof.
  split.
  - intros o ->. reflexivity.
  - intros l Harg. cbn zeta.
    assert (Hrun : AugmentorList__init__ self augmentors hp =
      (reset_state (AugmentorList self l) ;;; ret (AugmentorList self l)) hp)
      by (destruct Harg as [-> | ->]; reflexivity).
    rewrite Hrun. unfold bind, ret.
    destruct (reset_state_run (AugmentorList self l) hp) as (Hok & Hreq & _).
    destruct (reset_state_frame (AugmentorList self l) hp) as (_ & Hin & _).
    destruct (reset_state (AugmentorList self l) hp) as [[[]|e] h1];
      cbn [fst snd] in *; [|discriminate].
    split; [reflexivity|]. split; [exact Hreq|exact Hin].
Qed.

(** ** Hooks that raise, hooks that are missing *)

(** X9.  An [AttributeError] raised inside a parameter hook is taken
    for a missing hook: the hook's side effects stay, and the
    parameter is [None], or what the private hook gave when it is the
    public hook that raised.  Any other exception of the private hook
    leaves [get_transform] with the heap as the hook left it, and the
    public hook is not called. *)
Theorem get_transform_params_exceptions (self : instance) (h : hooks)
    (img : Img) (w : world C) :
  (forall f h1,
     _get_augment_params h = Some f -> get_augment_params h = None ->
     f img (mem w) = (Raise AttributeError, h1) ->
     get_transform_params h img (mem w) = (Ok PNone, h1)) /\
  (forall f g p1 h1 h2,
     _get_augment_params h = Some f -> get_augment_params h = Some g ->
     f img (mem w) = (Ok p1, h1) -> g img h1 = (Raise AttributeError, h2) ->
     get_transform_params h img (mem w) = (Ok p1, h2)) /\
  (forall f e h1,
     _get_augment_params h = Some f ->
     f img (mem w) = (Raise e, h1) -> e <> AttributeError ->
     get_transform_params h img (mem w) = (Raise e, h1) /\
     get_transform (ImageAugmentor self h) img w =
     (Raise e, {| mem := h1; warned := warned w |})).
Proof.
  split; [|split].
  - intros f h1 Hf Hg Hrun. unfold get_transform_params.
    rewrite Hf, Hg. run. rewrite Hrun. reflexivity.
  - intros f g p1 h1 h2 Hf Hg Hrun1 Hrun2. unfold get_transform_params.
    rewrite Hf, Hg. run. rewrite Hrun1, Hrun2. reflexivity.
  - intros f e h1 Hf Hrun He.
    assert (Hp : get_transform_params h img (mem w) = (Raise e, h1)).
    { unfold get_transform_params. rewrite Hf. run. rewrite Hrun.
      destruct e; try reflexivity. contradiction. }
    split; [exact Hp|].
    rewrite ImageAugmentor_get_transform_run. unfold lift. rewrite Hp.
    reflexivity.
Qed.

(** X10.  For coordinates the first hook that answers wins:
    [_augment_coords] when it is defined and does not raise
    [AttributeError]; otherwise [augment_coords], which unless
    overridden applies the parameter's own [apply_coords]; and when
    that raises [AttributeError] too, the coordinates come back as
    they are, in the state the two attempts left.  An
    [AttributeError] raised inside [_augment_coords] counts as its
    absence. *)
Theorem legacy_augment_coords_precedence (h : hooks) (coords : Coords)
    (p : param) (hp : heap C) :
  (forall f,
     _augment_coords h = Some f ->
     fst (f coords p hp) <> Raise AttributeError ->
     legacy_augment_coords h coords p hp = f coords p hp) /\
  (forall g,
     _augment_coords h = None -> augment_coords_override h = Some g ->
     fst (g coords p hp) <> Raise AttributeError ->
     legacy_augment_coords h coords p hp = g coords p hp) /\
  (forall v m,
     _augment_coords h = None -> augment_coords_override h = None ->
     p = PObject v (Some m) ->
     fst (m coords hp) <> Raise AttributeError ->
     legacy_augment_coords h coords p hp = m coords hp) /\
  (forall f h1,
     _augment_coords h = Some f ->
     f coords p hp = (Raise AttributeError, h1) ->
     fst (augment_coords h coords p h1) <> Raise AttributeError ->
     legacy_augment_coords h coords p hp = augment_coords h coords p h1) /\
  (forall f h1 h2,
     _augment_coords h = Some f ->
     f coords p hp = (Raise AttributeError, h1) ->
     augment_coords h coords p h1 = (Raise AttributeError, h2) ->
     legacy_augment_coords h coords p hp = (Ok coords, h2)).
Proof.
  assert (Hkeep : forall (c : SE (heap C) Coords) (k : SE (heap C) Coords) s,
    fst (c s) <> Raise AttributeError -> except_AttributeError c k s = c s).
  { intros c k s Hne. unfold except_AttributeError.
    destruct (c s) as [[x|e] s']; [reflexivity|].
    destruct e; try reflexivity. contradiction. }
  unfold legacy_augment_coords. split; [|split; [|split; [|split]]].
  - intros f Hf Hne. rewrite Hf. cbn [call2]. apply Hkeep, Hne.
  - intros g Hf Hg Hne. rewrite Hf. unfold augment_coords. rewrite Hg.
    unfold except_AttributeError at 1. cbn [call2]. unfold raise at 1.
    apply Hkeep, Hne.
  - intros v m Hf Hg -> Hne. rewrite Hf. unfold augment_coords. rewrite Hg.
    unfold except_AttributeError at 1. cbn [call2]. unfold raise at 1.
    cbn [ImageAugmentor_augment_coords]. apply Hkeep, Hne.
  - intros f h1 Hf Hrun1 Hne. rewrite Hf. cbn [call2].
    unfold except_AttributeError at 1. rewrite Hrun1. apply Hkeep, Hne.
  - intros f h1 h2 Hf Hrun1 Hrun2. rewrite Hf. cbn [call2].
    unfold except_AttributeError. rewrite Hrun1, Hrun2. reflexivity.
Qed.


(** X12.  [get_transform] plans and does not apply: the state it
    leaves, and whether it returns, depend on the parameter hooks
    only, not on [_augment] or the coordinate hooks. *)
Theorem get_transform_does_not_apply (self : instance) (h h' : hooks)
    (img : Img) (w : world C) :
  _get_augment_params h = _get_augment_params h' ->
  get_augment_params h = get_augment_params h' ->
  snd (get_transform (ImageAugmentor self h) img w) =
  snd (get_transform (ImageAugmentor self h') img w) /\
  (forall e,
     fst (get_transform (ImageAugmentor self h) img w) = Raise e <->
     fst (get_transform (ImageAugmentor self h') img w) = Raise e).
Proof.
  intros Hf Hg.
  assert (Hp : get_transform_params h img (mem w) =
               get_transform_params h' img (mem w))
    by (unfold get_transform_params; rewrite Hf, Hg; reflexivity).
  rewrite !ImageAugmentor_get_transform_run. unfold lift. rewrite Hp.
  destruct (get_transform_params h' img (mem w)) as [[p|e] h1].
  - destruct p as [|t|v m];
      try (destruct (__str__ self {| mem := h1; warned := warned w |})
             as [[name|e0] w2]);
      cbn [fst snd]; (split; [reflexivity|]); intros e; split; intros H;
      try discriminate H; exact H.
  - cbn [fst snd]. split; [reflexivity|]. intros e'. reflexivity.
Qed.


(** ** Lists *)

(** The list's [augment_return_tfm] on an image that passes the checks. *)
Lemma AugmentorList_augment_return_tfm_checked (augmentors : list augmentor)
    (img : Img) (w : world C) :
  check_dtype img = Ok tt -> ndim img = 2 \/ ndim img = 3 ->
  AugmentorList_augment_return_tfm augmentors img w =
  match augment_stages augmentors img [] w with
  | (Ok r, w') => (Ok (fst r, TransformList (snd r)), w')
  | (Raise e, w') => (Raise e, w')
  end.
Proof.
  intros Hdtype Hndim.
  unfold AugmentorList_augment_return_tfm. rewrite Hdtype.
  rewrite bool_decide_eq_true_2
    by (destruct Hndim as [-> | ->]; [left|right; left]).
  run. destruct (augment_stages augmentors img [] w) as [[r|e] w'];
    reflexivity.
Qed.

(** X14.  A list checks the image before it consults any augmentor:
    when [check_dtype] raises, that exception leaves
    [augment_return_tfm] and [augment]; when the image has neither 2
    nor 3 axes, an [AssertionError] carrying the number of axes does;
    in both cases nothing has changed. *)
Theorem AugmentorList_rejects_image (self : instance)
    (augmentors : list augmentor) (img : Img) (w : world C) :
  (forall e, check_dtype img = Raise e ->
     augment_return_tfm (AugmentorList self augmentors) img w = (Raise e, w) /\
     augment (AugmentorList self augmentors) img w = (Raise e, w)) /\
  (check_dtype img = Ok tt -> ndim img <> 2 -> ndim img <> 3 ->
     augment_return_tfm (AugmentorList self augmentors) img w =
       (Raise (AssertionError (pretty (ndim img))), w) /\
     augment (AugmentorList self augmentors) img w =
       (Raise (AssertionError (pretty (ndim img))), w)).
Proof.
  split.
  - intros e He. cbn [augment_return_tfm augment].
    unfold AugmentorList_augment_return_tfm. rewrite He. split; reflexivity.
  - intros Hd H2 H3. cbn [augment_return_tfm augment].
    unfold AugmentorList_augment_return_tfm. rewrite Hd.
    rewrite bool_decide_eq_false_2.
    + split; reflexivity.
    + intros Hin. apply elem_of_cons in Hin as [?|Hin]; [contradiction|].
      apply elem_of_cons in Hin as [?|Hin]; [contradiction|].
      inversion Hin.
Qed.

(** X15.  The empty list hands the image back unchanged, with an empty
    [TransformList], and changes nothing, provided the image passes
    the checks. *)
Theorem AugmentorList_empty (self : instance) (img : Img) (w : world C) :
  check_dtype img = Ok tt -> ndim img = 2 \/ ndim img = 3 ->
  augment_return_tfm (AugmentorList self []) img w =
    (Ok (img, TransformList []), w) /\
  augment (AugmentorList self []) img w = (Ok img, w).
Proof.
  intros Hd Hn. cbn [augment_return_tfm augment]. unfold bind.
  rewrite (AugmentorList_augment_return_tfm_checked [] img w Hd Hn).
  split; reflexivity.
Qed.

(** Stages of a concatenation: the first list, then the second. *)
Lemma augment_stages_app (l1 l2 : list augmentor) :
  forall (img : Img) (acc : list Transform) (w : world C),
    augment_stages (l1 ++ l2) img acc w =
    match augment_stages l1 img acc w with
    | (Ok r, w1) => augment_stages l2 (fst r) (snd r) w1
    | (Raise e, w1) => (Raise e, w1)
    end.
Proof.
  induction l1 as [|a rest IH]; intros img acc w; [reflexivity|].
  cbn [app augment_stages]. unfold bind.
  destruct (get_transform a img w) as [[t|e] w1]; [|reflexivity].
  destruct (lift (apply_image t img) w1) as [[img1|e] w2]; [|reflexivity].
  apply IH.
Qed.

(** X16.  Augmenting with the concatenation of two lists is augmenting
    with the first and then, on its output and in the state it left,
    with the second, provided the intermediate image passes the same
    checks; and when the first list raises, the concatenation raises
    the same, in the same state, and the second list is not run. *)
Theorem AugmentorList_augment_app (s s1 s2 : instance)
    (l1 l2 : list augmentor) (img : Img) (w : world C) :
  check_dtype img = Ok tt -> ndim img = 2 \/ ndim img = 3 ->
  match augment (AugmentorList s1 l1) img w with
  | (Raise e, w1) =>
      augment (AugmentorList s (l1 ++ l2)) img w = (Raise e, w1)
  | (Ok img1, w1) =>
      check_dtype img1 = Ok tt -> ndim img1 = 2 \/ ndim img1 = 3 ->
      augment (AugmentorList s (l1 ++ l2)) img w =
      augment (AugmentorList s2 l2) img1 w1
  end.
Proof.
  intros Hd Hn. cbn [augment]. unfold bind.
  rewrite !(AugmentorList_augment_return_tfm_checked _ img w Hd Hn).
  rewrite (augment_stages_app l1 l2 img [] w).
  destruct (augment_stages l1 img [] w) as [[r1|e] w1]; [|reflexivity].
  cbn [fst]. intros Hd1 Hn1.
  rewrite (AugmentorList_augment_return_tfm_checked _ (fst r1) w1 Hd1 Hn1).
  rewrite (augment_stages_acc l2 (fst r1) (snd r1) w1).
  destruct (augment_stages l2 (fst r1) [] w1) as [[r2|e] w2]; reflexivity.
Qed.

(** Stages with a list among them do not return. *)
Lemma augment_stages_nested (augmentors : list augmentor) :
  Exists (fun a => is_AugmentorList a = true) augmentors ->
  forall (img : Img) (acc : list Transform) (w : world C),
    exists e, fst (augment_stages augmentors img acc w) = Raise e.
Proof.
  induction 1 as [a rest Ha|a rest _ IH]; intros img acc w.
  - destruct a; try discriminate Ha. eexists. reflexivity.
  - cbn [augment_stages]. unfold bind.
    destruct (get_transform a img w) as [[t|e] w1]; [|eexists; reflexivity].
    destruct (lift (apply_image t img) w1) as [[img1|e] w2];
      [|eexists; reflexivity].
    apply IH.
Qed.

(** X17.  A list that contains a list, anywhere in it, never returns
    from [augment_return_tfm] or [augment], whatever the image and the
    state: the stage of the inner list raises, unless something before
    it did. *)
Theorem AugmentorList_nested_never_returns (self : instance)
    (augmentors : list augmentor) (img : Img) (w : world C) :
  Exists (fun a => is_AugmentorList a = true) augmentors ->
  (exists e,
     fst (augment_return_tfm (AugmentorList self augmentors) img w) = Raise e) /\
  (exists e,
     fst (augment (AugmentorList self augmentors) img w) = Raise e).
Proof.
  intros Hex.
  assert (Hraise : exists e,
    fst (AugmentorList_augment_return_tfm augmentors img w) = Raise e).
  { unfold AugmentorList_augment_return_tfm. run.
    destruct (check_dtype img) as [[]|e]; [|eexists; reflexivity].
    destruct (bool_decide _); [|eexists; reflexivity].
    destruct (augment_stages_nested augmentors Hex img [] w) as [e He].
    destruct (augment_stages augmentors img [] w) as [[r|e'] w'];
      [discriminate He|]. eexists. reflexivity. }
  split; [exact Hraise|].
  destruct Hraise as [e He]. cbn [augment]. unfold bind.
  destruct (AugmentorList_augment_return_tfm augmentors img w) as [[r|e'] w'];
    [discriminate He|]. eexists. reflexivity.
Qed.

(** X18.  The entry points agree, for every augmentor, image and
    state: [augment] is the image of [augment_return_tfm] and leaves
    the same state, and the legacy [augment_return_params] is
    [augment_return_tfm]. *)
Theorem augment_entry_points_agree (a : augmentor) (img : Img) (w : world C) :
  augment a img w =
  match augment_return_tfm a img w with
  | (Ok r, w') => (Ok (fst r), w')
  | (Raise e, w') => (Raise e, w')
  end /\
  augment_return_params a img w = augment_return_tfm a img w.
Proof.
  split; [|destruct a; reflexivity].
  assert (Hbase : ImageAugmentor_augment a img w =
    match ImageAugmentor_augment_return_tfm a img w with
    | (Ok r, w') => (Ok (fst r), w')
    | (Raise e, w') => (Raise e, w')
    end).
  { unfold ImageAugmentor_augment, ImageAugmentor_augment_return_tfm, bind.
    destruct (get_transform a img w) as [[t|e] w1]; [|reflexivity].
    destruct (lift (apply_image t img) w1) as [[img1|e] w2]; reflexivity. }
  destruct a; try exact Hbase.
  cbn [augment augment_return_tfm]. unfold bind.
  destruct (AugmentorList_augment_return_tfm augmentors img w) as [[r|e] w'];
    reflexivity.
Qed.

(** ** Replaying *)

(** Applying the collected transforms in order, as a [TransformList]
    does, gives the image the stages gave, when the transforms are
    pure. *)
Lemma augment_stages_replay (augmentors : list augmentor) :
  forall (img : Img) (w : world C) r w',
    augment_stages augmentors img [] w = (Ok r, w') ->
    Forall pure_image (snd r) ->
    forall hp, apply_image (TransformList (snd r)) img hp = (Ok (fst r), hp).
Proof.
  induction augmentors as [|a rest IH]; intros img w r w' Hrun Hpure hp.
  - cbn in Hrun. injection Hrun as <- _. reflexivity.
  - cbn [augment_stages] in Hrun. unfold bind in Hrun.
    destruct (get_transform a img w) as [[t|e] w1]; [|discriminate].
    destruct (lift (apply_image t img) w1) as [[img1|e] w2] eqn:Hap;
      [|discriminate].
    rewrite (augment_stages_acc rest img1 ([] ++ [t]) w2) in Hrun.
    destruct (augment_stages rest img1 [] w2) as [[r1|e] w3] eqn:Hrest;
      [|discriminate].
    injection Hrun as <- _. cbn [fst snd app] in *.
    apply Forall_cons in Hpure as [[f Hf] Hpure].
    unfold lift in Hap. rewrite Hf in Hap. cbv beta iota zeta in Hap.
    assert (Himg : img1 = f img) by congruence. subst img1.
    specialize (IH (f img) w2 r1 w3 Hrest Hpure hp).
    cbn [apply_image] in *. unfold bind at 1. rewrite Hf. exact IH.
Qed.

(** X19.  What [augment_return_tfm] returns can be replayed.  For an
    augmentor that is not a list, the returned transform is the one
    [get_transform] made, and applying it to the same image in the
    state [get_transform] left gives the returned image.  For a list
    whose collected transforms are pure, [augment_with_params] on the
    original image with the returned [TransformList] gives the final
    image again, in any state. *)
Theorem augment_return_tfm_replay (a : augmentor) (img img' : Img)
    (t : Transform) (w w' : world C) :
  augment_return_tfm a img w = (Ok (img', t), w') ->
  (is_AugmentorList a = false ->
   exists w1,
     get_transform a img w = (Ok t, w1) /\
     augment_with_params img t (mem w1) = (Ok img', mem w') /\
     warned w' = warned w1) /\
  (is_AugmentorList a = true ->
   forall tfms, t = TransformList tfms -> Forall pure_image tfms ->
   forall hp, augment_with_params img t hp = (Ok img', hp)).
Proof.
  intros Hrun. split.
  - intros Hleaf.
    assert (Hbase : ImageAugmentor_augment_return_tfm a img w
                    = (Ok (img', t), w'))
      by (destruct a; try exact Hrun; discriminate Hleaf).
    unfold ImageAugmentor_augment_return_tfm, bind in Hbase.
    destruct (get_transform a img w) as [[t0|e] w1]; [|discriminate].
    unfold lift in Hbase. unfold augment_with_params.
    destruct (apply_image t0 img (mem w1)) as [[i|e] h1] eqn:Hap;
      [|discriminate].
    injection Hbase as <- <- <-. exists w1.
    split; [reflexivity|]. split; [exact Hap|reflexivity].
  - intros Hlist tfms -> Hpure hp.
    destruct a as [| | |self augmentors]; try discriminate Hlist.
    cbn [augment_return_tfm] in Hrun.
    unfold AugmentorList_augment_return_tfm in Hrun. run.
    destruct (check_dtype img) as [[]|e]; [|discriminate].
    destruct (bool_decide _); [|discriminate].
    destruct (augment_stages augmentors img [] w) as [[r|e] w1] eqn:Hst;
      [|discriminate].
    injection Hrun as <- <- _.
    apply (augment_stages_replay augmentors img w r w1 Hst Hpure).
Qed.

End MoreParameters.

(** * The further properties on concrete inputs *)

Section MoreConcrete.
Import Stub StubMore.



Lemma init_attributes_witness :
  attrs (_init zoom_bare (Some zoom_locals)) !! "scale" =
    Some {| py_id := 42; py_repr := "2" |} /\
  attrs (_init zoom_bare (Some zoom_locals)) !! "self" = None /\
  attrs (_init zoom_bare (Some zoom_locals)) !! "_cache" = None /\
  attrs (_init zoom_bare (Some zoom_locals)) !! "shear" = None.
Proof.
  destruct (init_attributes zoom_bare (Some zoom_locals))
    as (_ & _ & Hskip & Hother & Hstore & _).
  split; [|split; [|split]].
  - apply (Hstore zoom_locals); try reflexivity.
    + apply (bool_decide_unpack _). vm_compute. exact I.
    + right. left.
    + discriminate.
  - rewrite Hskip; [reflexivity|left; reflexivity].
  - rewrite Hskip; [reflexivity|right; reflexivity].
  - rewrite Hother; [reflexivity|].
    intros items Heq. injection Heq as <-.
    apply (bool_decide_unpack _). vm_compute. exact I.
Defined.


Lemma rand_range_frame_witness :
  let hp := snd (__init__ aug1 heap0) in
  let h' := snd (_rand_range (rotation 11 py_True) None None None hp) in
  rngs hp !! 11%N = Some 2%nat /\
  rngs h' !! 11%N = Some 3%nat /\
  rng_requests h' = [11%N].
Proof.
  cbn zeta.
  destruct (rand_range_frame (rotation 11 py_True) None None None
              (snd (__init__ aug1 heap0))) as (_ & Hreq & _ & _ & Hown).
  split; [reflexivity|]. split.
  - destruct (Hown 2%nat eq_refl) as (lo & hi & sz & _ & Hr).
    transitivity (Some (snd (uniform lo hi sz 2%nat)));
      [exact Hr|reflexivity].
  - rewrite Hreq. reflexivity.
Defined.


Lemma reset_after_fork_witness :
  is_Some (rngs (snd (_reset_augmentor_after_fork always_true (Some aug1)
                        heap0)) !! 11%N) /\
  rng_requests (snd (_reset_augmentor_after_fork always_true (Some aug1)
                       heap0)) = [11%N] /\
  _reset_augmentor_after_fork sized_truth (Some (AugmentorList
      (list_instance 24) [])) heap0 = (Ok tt, heap0) /\
  _reset_augmentor_after_fork sized_truth (Some flat_list) heap0 =
    reset_state flat_list heap0 /\
  _reset_augmentor_after_fork failing_truth (Some aug1) heap0 =
    (Raise TypeError, heap0).
Proof.
  destruct (reset_after_fork always_true aug1 heap0) as (_ & Hlive & _).
  destruct (Hlive heap0 eq_refl) as (_ & _ & Hown & Hreq & _).
  split; [exact Hown|]. split; [exact Hreq|].
  split; [|split].
  - destruct (reset_after_fork sized_truth
                (AugmentorList (list_instance 24) []) heap0)
      as (_ & _ & Hfalse & _).
    apply Hfalse. reflexivity.
  - destruct (reset_after_fork sized_truth flat_list heap0)
      as (_ & Htrue & _).
    apply (Htrue heap0 eq_refl).
  - destruct (reset_after_fork failing_truth aug1 heap0)
      as (_ & _ & _ & Hraise & _).
    apply Hraise. reflexivity.
Defined.

Lemma AugmentorList_init_witness :
  AugmentorList__init__ (list_instance 25)
    (ArgOther {| py_id := 50; py_repr := "None" |}) heap0 =
    (Raise (AssertionError "None"), heap0) /\
  rng_requests
    (snd (AugmentorList__init__ (list_instance 25) (ArgList [aug1; aug2])
            heap0)) = [25; 11; 12]%N.
Proof.
  split.
  - destruct (AugmentorList_init (list_instance 25)
                (ArgOther {| py_id := 50; py_repr := "None" |}) heap0)
      as (H & _).
    apply (H _ eq_refl).
  - destruct (AugmentorList_init (list_instance 25) (ArgList [aug1; aug2])
                heap0) as (_ & H).
    destruct (H [aug1; aug2] (or_introl eq_refl)) as (_ & Hreq & _).
    rewrite Hreq. reflexivity.
Defined.

Lemma get_transform_params_exceptions_witness :
  get_transform_params raising_private_hooks 0 heap0 = (Ok PNone, heap0) /\
  get_transform_params public_raising_hooks 0 heap0 =
    (Ok (PObject 1 None), heap0) /\
  get_transform (ImageAugmentor (rotation 11 py_True) crashing_private_hooks)
    0 world0 = (Raise (OtherError 7), world0).
Proof.
  split; [|split].
  - destruct (get_transform_params_exceptions (rotation 11 py_True)
                raising_private_hooks 0 world0) as (H & _).
    eapply H; reflexivity.
  - destruct (get_transform_params_exceptions (rotation 11 py_True)
                public_raising_hooks 0 world0) as (_ & H & _).
    eapply H; reflexivity.
  - destruct (get_transform_params_exceptions (rotation 11 py_True)
                crashing_private_hooks 0 world0) as (_ & _ & H).
    eapply H; [reflexivity | reflexivity | discriminate].
Defined.

Lemma legacy_augment_coords_precedence_witness :
  legacy_augment_coords coords_hooks 10 PNone heap0 = (Ok 11, heap0) /\
  legacy_augment_coords failing_coords_hooks 10 PNone heap0 = (Ok 12, heap0) /\
  legacy_augment_coords raising_coords_hooks 10 PNone heap0 = (Ok 10, heap0).
Proof.
  split; [|split].
  - destruct (legacy_augment_coords_precedence coords_hooks 10 PNone heap0)
      as (H & _).
    specialize (H _ eq_refl). rewrite H; [reflexivity|discriminate].
  - destruct (legacy_augment_coords_precedence failing_coords_hooks 10 PNone
                heap0) as (_ & _ & _ & H & _).
    specialize (H _ heap0 eq_refl eq_refl).
    rewrite H; [reflexivity|discriminate].
  - destruct (legacy_augment_coords_precedence raising_coords_hooks 10 PNone
                heap0) as (_ & _ & _ & _ & H).
    eapply H; reflexivity.
Defined.


Lemma get_transform_does_not_apply_witness :
  snd (get_transform (ImageAugmentor (rotation 11 py_True) legacy_hooks)
         5 world0) =
  snd (get_transform (ImageAugmentor (rotation 11 py_True) plan_only_hooks)
         5 world0).
Proof.
  apply (get_transform_does_not_apply (rotation 11 py_True) legacy_hooks
           plan_only_hooks 5 world0); reflexivity.
Defined.


Lemma AugmentorList_empty_witness :
  augment (AugmentorList (list_instance 24) []) 5 world0 = (Ok 5, world0).
Proof.
  apply (AugmentorList_empty (C := stub) (list_instance 24) 5 world0);
    [reflexivity|left; reflexivity].
Defined.

Lemma AugmentorList_nested_never_returns_witness :
  exists e, fst (augment outer_list 5 world0) = Raise e.
Proof.
  apply (AugmentorList_nested_never_returns (C := stub) (list_instance 22)
           [inner_list] 5 world0).
  left. reflexivity.
Defined.

Lemma augment_return_tfm_replay_witness :
  augment_return_tfm plus_100_aug 5 world0 = (Ok (105, plus_100), world0) /\
  augment_with_params 5 plus_100 heap0 = (Ok 105, heap0) /\
  augment_return_tfm (AugmentorList (list_instance 26)
                        [plus_100_aug; plus_100_aug]) 5 world0 =
    (Ok (205, TransformList [plus_100; plus_100]), world0) /\
  augment_with_params 5 (TransformList [plus_100; plus_100]) heap0 =
    (Ok 205, heap0).
Proof.
  assert (Hrun1 : augment_return_tfm plus_100_aug 5 world0 =
                  (Ok (105, plus_100), world0)) by reflexivity.
  assert (Hrun2 : augment_return_tfm (AugmentorList (list_instance 26)
                    [plus_100_aug; plus_100_aug]) 5 world0 =
                  (Ok (205, TransformList [plus_100; plus_100]), world0))
    by reflexivity.
  split; [exact Hrun1|]. split; [|split; [exact Hrun2|]].
  - destruct (augment_return_tfm_replay _ _ _ _ _ _ Hrun1) as (Hleaf & _).
    destruct (Hleaf eq_refl) as (w1 & Hgt & Hreplay & _).
    assert (Hw1 : mem w1 = heap0).
    { assert (Hc : get_transform plus_100_aug 5 world0 = (Ok plus_100, world0))
        by reflexivity.
      rewrite Hc in Hgt. injection Hgt as <-. reflexivity. }
    rewrite Hw1 in Hreplay. exact Hreplay.
  - destruct (augment_return_tfm_replay _ _ _ _ _ _ Hrun2) as (_ & Hlist).
    apply (Hlist eq_refl _ eq_refl).
    repeat constructor; exists (fun i => i + 100); intros i hp; reflexivity.
Defined.

End MoreConcrete.

Section CheckedConcrete.
Import StubChecked.

Lemma AugmentorList_rejects_image_witness :
  augment (C := checked) (AugmentorList plain [add_axis]) (-1) world0 =
    (Raise TypeError, world0) /\
  augment (C := checked) (AugmentorList plain [add_axis]) 5 world0 =
    (Raise (AssertionError "5"), world0) /\
  augment (C := checked) (AugmentorList plain [add_axis]) 2 world0 =
    (Ok 3, world0).
Proof.
  destruct (AugmentorList_rejects_image (C := checked) plain [add_axis]
              (-1) world0) as (Hdtype & _).
  destruct (AugmentorList_rejects_image (C := checked) plain [add_axis]
              5 world0) as (_ & Hndim).
  split; [|split].
  - apply (Hdtype TypeError). reflexivity.
  - apply Hndim; [reflexivity | discriminate | discriminate].
  - reflexivity.
Defined.

Lemma AugmentorList_augment_app_witness :
  augment (C := checked) (AugmentorList plain [add_axis]) 2 world0 =
    (Ok 3, world0) /\
  augment (C := checked) (AugmentorList plain ([add_axis] ++ [add_axis]))
    2 world0 =
  augment (C := checked) (AugmentorList plain [add_axis]) 3 world0.
Proof.
  split; [reflexivity|].
  pose proof (AugmentorList_augment_app (C := checked) plain plain plain
                [add_axis] [add_axis] 2 world0 eq_refl (or_introl eq_refl))
    as H.
  change (augment (C := checked) (AugmentorList plain [add_axis]) 2 world0)
    with (Ok (3 : @Img checked), world0) in H.
  cbv beta iota in H.
  apply H; [reflexivity|right; reflexivity].
Defined.

End CheckedConcrete.
